(** * Multimodal AI Assistant: the Streamlit orchestration layer

    A shallow embedding of [src/streamlit_app.py] and the properties of its
    routing, session-state and error-handling logic.

    The script is re-executed by Streamlit at every interaction of the user:
    [main] builds a new [MultimodalAIAssistant] and calls [run] on it, while
    [st.session_state] survives from one execution to the next.  The
    embedding has the same two levels: the methods of the class are
    computations over a [State] (session state, the fields of [self], and
    the trace of what has been shown and called so far), and a session is a
    sequence of executions of [main] over the persisted store. *)

From Stdlib Require Import String Ascii List Bool ZArith Lia.
From Stdlib Require Import Strings.Byte.
Import ListNotations.
Open Scope string_scope.

(** ** The Python library functions that the script uses on file names

    File names are ASCII text, and [os.path] is [posixpath]. *)

Module Py.

(** [str.lower], on ASCII letters. *)
Definition lower_char (c : ascii) : ascii :=
  let n := nat_of_ascii c in
  if (65 <=? n)%nat && (n <=? 90)%nat then ascii_of_nat (n + 32) else c.

Fixpoint lower (s : string) : string :=
  match s with
  | EmptyString => EmptyString
  | String c r => String (lower_char c) (lower r)
  end.

(** [str.rfind] for a one-character needle: the highest index, or -1. *)
Fixpoint rfind_from (c : ascii) (p : string) (i found : Z) : Z :=
  match p with
  | EmptyString => found
  | String x r => rfind_from c r (i + 1) (if Ascii.eqb x c then i else found)
  end.

Definition rfind (c : ascii) (p : string) : Z := rfind_from c p 0 (-1).

(** The slices [p[:i]] and [p[i:]] for an index [0 <= i]. *)
Definition slice_to (p : string) (i : Z) : string :=
  substring 0 (Z.to_nat i) p.

Definition slice_from (p : string) (i : Z) : string :=
  substring (Z.to_nat i) (String.length p - Z.to_nat i) p.

Definition char_at (p : string) (i : Z) : option ascii :=
  if (i <? 0)%Z then None else String.get (Z.to_nat i) p.

(** The loop of [genericpath._splitext] that skips the leading dots of the
    file name: [fileNameIndex] runs from [sepIndex + 1] up to [dotIndex],
    and [n] is the number of iterations that are left.  It answers whether
    a character other than the dot was met. *)
Fixpoint splitext_loop (p : string) (filenameIndex : Z) (n : nat) : bool :=
  match n with
  | O => false
  | S n' =>
      match char_at p filenameIndex with
      | Some c =>
          if Ascii.eqb c "." then splitext_loop p (filenameIndex + 1) n'
          else true
      | None => true
      end
  end.

(** [os.path.splitext] of [posixpath]: separator [/], no alternative
    separator, extension separator [.]. *)
Definition splitext (p : string) : string * string :=
  let sepIndex := rfind "/" p in
  let dotIndex := rfind "." p in
  if (sepIndex <? dotIndex)%Z
     && splitext_loop p (sepIndex + 1) (Z.to_nat (dotIndex - (sepIndex + 1)))
  then (slice_to p dotIndex, slice_from p dotIndex)
  else (p, "").

Definition starts_with_sep (b : string) : bool :=
  match b with
  | String "/" _ => true
  | _ => false
  end.

Fixpoint ends_with_sep (a : string) : bool :=
  match a with
  | EmptyString => false
  | String c EmptyString => Ascii.eqb c "/"
  | String _ r => ends_with_sep r
  end.

(** [os.path.join] of [posixpath] with two components. *)
Definition path_join (a b : string) : string :=
  if starts_with_sep b then b
  else if (a =? "") || ends_with_sep a then a ++ b
  else a ++ "/" ++ b.

(** [x in [...]] on a list of strings. *)
Definition is_in (x : string) (l : list string) : bool :=
  existsb (String.eqb x) l.

(** Truth value of a string, and of a value that is [None] or a string. *)
Definition truthy_str (s : string) : bool := negb (s =? "").

Definition truthy (v : option string) : bool :=
  match v with
  | None => false
  | Some s => truthy_str s
  end.

(** [v != s] where [v] is [None] or a string, and [s] a string. *)
Definition differs (v : option string) (s : string) : bool :=
  match v with
  | None => true
  | Some x => negb (x =? s)
  end.

End Py.

(** ** Data model *)

(** The exception that a constructor raised, as the text that [{e}] shows. *)
Definition Exception := string.

(** How a call ends: with a value; with an exception that derives from
    [Exception], which [except Exception] catches; or with one that does
    not ([SystemExit], [KeyboardInterrupt], [GeneratorExit]), which it lets
    through. *)
Inductive Result (A : Type) : Type :=
| Ok (a : A)
| Raise (e : Exception)
| Exit (e : Exception).

Arguments Ok {A} a.
Arguments Raise {A} e.
Arguments Exit {A} e.

(** The three collaborators are classes of modules that are imported by the
    script; an object of each is known here by its identity only.  An
    instance of a plain class is true in a condition. *)
Inductive AudioTranscriber : Type := AudioTranscriber_at (id : nat).
Inductive PDFChatbot : Type := PDFChatbot_at (id : nat).
Inductive QwenVLDescriptionGenerator : Type := QwenVLDescriptionGenerator_at (id : nat).

Inductive Role : Type := user | assistant.

(** An entry of [pdf_chat_messages]: [{"role": ..., "content": ...}]. *)
Record Message : Type := mkMessage {
  role : Role;
  content : string
}.

(** The four options of the mode selector. *)
Inductive Mode : Type :=
| AutoDetect
| QuestionAnswering
| Transcription
| ImageDescription.

Definition Mode_eq_dec (a b : Mode) : {a = b} + {a <> b}.
Proof. decide equality. Defined.

Definition mode_label (m : Mode) : string :=
  match m with
  | AutoDetect => "Auto Detect"
  | QuestionAnswering => "Question Answering"
  | Transcription => "Transcription"
  | ImageDescription => "Image Description"
  end.

(** What [st.file_uploader] returns when a file is there. *)
Record UploadedFile : Type := mkUploadedFile {
  name : string;
  getvalue : list byte
}.

(** The values that the widgets return in one execution of the script. *)
Record Widgets : Type := mkWidgets {
  text_input : string;            (* st.sidebar.text_input("Enter Google API Key") *)
  button : bool;                  (* st.sidebar.button("Clear Conversation History") *)
  file_uploader : option UploadedFile;
  selectbox : Mode;
  chat_input : option string
}.

(** [st.session_state] once [__init__] has run: the four keys are there. *)
Record session_state : Type := mk_session_state {
  session_id : string;
  pdf_chat_messages : list Message;
  current_pdf_path : option string;
  google_api_key : option string
}.

(** [st.session_state] between two executions: a key may be missing. *)
Record Store : Type := mkStore {
  stored_session_id : option string;
  stored_pdf_chat_messages : option (list Message);
  stored_current_pdf_path : option (option string);
  stored_google_api_key : option (option string)
}.

(** The fields of [self]. *)
Record MultimodalAIAssistant : Type := mk_self {
  audio_transcriber : option AudioTranscriber;
  pdf_chatbot : option PDFChatbot;
  image_description_generator : option QwenVLDescriptionGenerator
}.

(** What the script shows, writes and calls, in the order of execution. *)
Inductive Event : Type :=
| st_title (s : string)
| st_sidebar_title (s : string)
| st_sidebar_subheader (s : string)
| st_success (s : string)
| st_warning (s : string)
| st_error (s : string)
| st_subheader (s : string)
| st_write (s : string)
| st_chat_message (r : Role)
| st_markdown (s : string)
| st_spinner (s : string)
| os_makedirs (dir : string)
| file_write (path : string) (data : list byte)
| call_AudioTranscriber (r : Result AudioTranscriber)
| call_PDFChatbot (pdf_path : string) (key : option string) (r : Result PDFChatbot)
| call_QwenVLDescriptionGenerator (r : Result QwenVLDescriptionGenerator)
| call_transcribe (h : AudioTranscriber) (file_path : string) (text : string)
| call_chat (h : PDFChatbot) (prompt : string) (sid : string) (answer : string)
| call_clear_history (h : PDFChatbot) (sid : string)
| call_generate_description (h : QwenVLDescriptionGenerator) (file_path : string) (text : string).

(** The state of an execution.  [trace] has the latest event first. *)
Record State : Type := mkState {
  st : session_state;
  self : MultimodalAIAssistant;
  trace : list Event
}.

(** The collaborators.  A constructor returns an object or raises, which is
    what the script guards with [try], with an exception of either kind; a
    method returns the value of its declared interface, the script having
    no handler around those calls.  Each one may depend on all that has
    happened so far. *)
Record Collaborators : Type := mkCollaborators {
  new_AudioTranscriber : State -> Result AudioTranscriber;
  new_PDFChatbot : State -> string -> option string -> Result PDFChatbot;
  new_QwenVLDescriptionGenerator : State -> Result QwenVLDescriptionGenerator;
  transcribe : State -> AudioTranscriber -> string -> string;
  chat_answer : State -> PDFChatbot -> string -> string -> string; (* chat(...)['answer'] *)
  generate_description : State -> QwenVLDescriptionGenerator -> string -> string
}.

(** ** Assignments *)

Definition set_pdf_chat_messages (v : list Message) (s : State) : State :=
  {| st := {| session_id := session_id (st s);
              pdf_chat_messages := v;
              current_pdf_path := current_pdf_path (st s);
              google_api_key := google_api_key (st s) |};
     self := self s; trace := trace s |}.

Definition set_current_pdf_path (v : option string) (s : State) : State :=
  {| st := {| session_id := session_id (st s);
              pdf_chat_messages := pdf_chat_messages (st s);
              current_pdf_path := v;
              google_api_key := google_api_key (st s) |};
     self := self s; trace := trace s |}.

Definition set_google_api_key (v : option string) (s : State) : State :=
  {| st := {| session_id := session_id (st s);
              pdf_chat_messages := pdf_chat_messages (st s);
              current_pdf_path := current_pdf_path (st s);
              google_api_key := v |};
     self := self s; trace := trace s |}.

Definition set_audio_transcriber (v : option AudioTranscriber) (s : State) : State :=
  {| st := st s;
     self := {| audio_transcriber := v;
                pdf_chatbot := pdf_chatbot (self s);
                image_description_generator := image_description_generator (self s) |};
     trace := trace s |}.

Definition set_pdf_chatbot (v : option PDFChatbot) (s : State) : State :=
  {| st := st s;
     self := {| audio_transcriber := audio_transcriber (self s);
                pdf_chatbot := v;
                image_description_generator := image_description_generator (self s) |};
     trace := trace s |}.

Definition set_image_description_generator
    (v : option QwenVLDescriptionGenerator) (s : State) : State :=
  {| st := st s;
     self := {| audio_transcriber := audio_transcriber (self s);
                pdf_chatbot := pdf_chatbot (self s);
                image_description_generator := v |};
     trace := trace s |}.

Definition record (e : Event) (s : State) : State :=
  {| st := st s; self := self s; trace := e :: trace s |}.

(** ** Computations: state, and exceptions that keep the state *)

Definition M (A : Type) : Type := State -> Result A * State.

Definition ret {A : Type} (a : A) : M A := fun s => (Ok a, s).

Definition bind {A B : Type} (m : M A) (k : A -> M B) : M B :=
  fun s =>
    match m s with
    | (Ok a, s') => k a s'
    | (Raise e, s') => (Raise e, s')
    | (Exit e, s') => (Exit e, s')
    end.

(** [try: body except Exception as e: handler]: the handler takes the
    exceptions that derive from [Exception] and no other. *)
Definition try_except {A : Type} (body : M A) (handler : Exception -> M A) : M A :=
  fun s =>
    match body s with
    | (Ok a, s') => (Ok a, s')
    | (Raise e, s') => handler e s'
    | (Exit e, s') => (Exit e, s')
    end.

Definition gets {A : Type} (f : State -> A) : M A := fun s => (Ok (f s), s).

Definition modify (f : State -> State) : M unit := fun s => (Ok tt, f s).

Definition emit (e : Event) : M unit := modify (record e).

Declare Scope py_scope.
Delimit Scope py_scope with py.

Notation "x <- m ;; k" := (bind m (fun x => k))
  (at level 100, m at next level, right associativity) : py_scope.
Notation "m ;; k" := (bind m (fun _ => k))
  (at level 100, right associativity) : py_scope.

Open Scope py_scope.

Fixpoint for_each {A : Type} (l : list A) (body : A -> M unit) : M unit :=
  match l with
  | [] => ret tt
  | x :: r => body x ;; for_each r body
  end.

Definition final {A : Type} (x : Result A * State) : State := snd x.
Definition outcome {A : Type} (x : Result A * State) : Result A := fst x.

(** ** The class [MultimodalAIAssistant] *)

Section Methods.

Variable C : Collaborators.

(** Calls of the collaborators: the call and what it gave are recorded. *)

Definition AudioTranscriber_ : M AudioTranscriber :=
  fun s =>
    let r := new_AudioTranscriber C s in
    (r, record (call_AudioTranscriber r) s).

Definition PDFChatbot_ (pdf_path : string) (key : option string) : M PDFChatbot :=
  fun s =>
    let r := new_PDFChatbot C s pdf_path key in
    (r, record (call_PDFChatbot pdf_path key r) s).

Definition QwenVLDescriptionGenerator_ : M QwenVLDescriptionGenerator :=
  fun s =>
    let r := new_QwenVLDescriptionGenerator C s in
    (r, record (call_QwenVLDescriptionGenerator r) s).

Definition transcribe_ (h : AudioTranscriber) (file_path : string) : M string :=
  fun s =>
    let text := transcribe C s h file_path in
    (Ok text, record (call_transcribe h file_path text) s).

Definition chat_ (h : PDFChatbot) (prompt sid : string) : M string :=
  fun s =>
    let answer := chat_answer C s h prompt sid in
    (Ok answer, record (call_chat h prompt sid answer) s).

Definition clear_history_ (h : PDFChatbot) (sid : string) : M unit :=
  emit (call_clear_history h sid).

Definition generate_description_
    (h : QwenVLDescriptionGenerator) (file_path : string) : M string :=
  fun s =>
    let text := generate_description C s h file_path in
    (Ok text, record (call_generate_description h file_path text) s).

(** [load_audio_transcriber], lines 37-46. *)
Definition load_audio_transcriber : M unit :=
  a <- gets (fun s => audio_transcriber (self s)) ;;
  match a with
  | None =>
      try_except
        (h <- AudioTranscriber_ ;;
         modify (set_audio_transcriber (Some h)) ;;
         emit (st_success "Audio Transcriber initialized successfully!"))
        (fun e => emit (st_error ("Failed to load Audio Transcriber: " ++ e)))
  | Some _ => ret tt
  end.

(** [load_pdf_chatbot], lines 48-74. *)
Definition load_pdf_chatbot (pdf_path : string) : M (option PDFChatbot) :=
  key <- gets (fun s => google_api_key (st s)) ;;
  if negb (Py.truthy key) then
    emit (st_warning "Please enter Google API key first!") ;;
    ret None
  else
    try_except
      (cur <- gets (fun s => current_pdf_path (st s)) ;;
       (if Py.differs cur pdf_path then
          modify (set_pdf_chat_messages []) ;;
          modify (set_current_pdf_path (Some pdf_path))
        else ret tt) ;;
       key' <- gets (fun s => google_api_key (st s)) ;;
       h <- PDFChatbot_ pdf_path key' ;;
       modify (set_pdf_chatbot (Some h)) ;;
       emit (st_success "PDF Chatbot initialized successfully!") ;;
       h' <- gets (fun s => pdf_chatbot (self s)) ;;
       ret h')
      (fun e =>
         emit (st_error ("Failed to load PDF Chatbot: " ++ e)) ;;
         ret None).

(** [load_image_description_generator], lines 76-85. *)
Definition load_image_description_generator : M unit :=
  g <- gets (fun s => image_description_generator (self s)) ;;
  match g with
  | None =>
      try_except
        (h <- QwenVLDescriptionGenerator_ ;;
         modify (set_image_description_generator (Some h)) ;;
         emit (st_success "Image Description Generator initialized successfully!"))
        (fun e => emit (st_error ("Failed to load Image Description Generator: " ++ e)))
  | Some _ => ret tt
  end.

(** [render_sidebar], lines 87-108. *)
Definition render_sidebar (w : Widgets) : M unit :=
  emit (st_sidebar_title "Multimodal AI Assistant") ;;
  emit (st_sidebar_subheader "Google API Configuration") ;;
  let google_api_key := text_input w in
  (if Py.truthy_str google_api_key then
     modify (set_google_api_key (Some google_api_key))
   else ret tt) ;;
  if button w then
    bot <- gets (fun s => pdf_chatbot (self s)) ;;
    match bot with
    | Some h =>
        sid <- gets (fun s => session_id (st s)) ;;
        clear_history_ h sid
    | None => ret tt
    end ;;
    modify (set_pdf_chat_messages []) ;;
    emit (st_success "Conversation history cleared!")
  else ret tt.

(** [render_pdf_chat_interface], lines 110-151. *)
Definition render_pdf_chat_interface (w : Widgets) (file_path : string) : M unit :=
  bot <- load_pdf_chatbot file_path ;;
  modify (set_pdf_chatbot bot) ;;
  match bot with
  | None => ret tt
  | Some h =>
      messages <- gets (fun s => pdf_chat_messages (st s)) ;;
      for_each messages (fun message =>
        emit (st_chat_message (role message)) ;;
        emit (st_markdown (content message))) ;;
      match chat_input w with
      | Some prompt =>
          if Py.truthy_str prompt then
            old <- gets (fun s => pdf_chat_messages (st s)) ;;
            modify (set_pdf_chat_messages
                      (old ++ [{| role := user; content := prompt |}])) ;;
            emit (st_chat_message user) ;;
            emit (st_markdown prompt) ;;
            emit (st_chat_message assistant) ;;
            emit (st_spinner "Thinking...") ;;
            sid <- gets (fun s => session_id (st s)) ;;
            response <- chat_ h prompt sid ;;
            emit (st_markdown response) ;;
            old' <- gets (fun s => pdf_chat_messages (st s)) ;;
            modify (set_pdf_chat_messages
                      (old' ++ [{| role := assistant; content := response |}]))
          else ret tt
      | None => ret tt
      end
  end.

(** The file extension of line 184. *)
Definition file_extension_of (uploaded_name : string) : string :=
  Py.lower (snd (Py.splitext uploaded_name)).

(** The assignment to [processing_mode] of lines 187-193. *)
Definition auto_detect (processing_mode file_extension : string) : string :=
  if processing_mode =? "Auto Detect" then
    if Py.is_in file_extension [".pdf"] then "Question Answering"
    else if Py.is_in file_extension [".jpg"; ".jpeg"; ".png"] then "Image Description"
    else if Py.is_in file_extension [".mp3"; ".wav"; ".mp4"; ".avi"] then "Transcription"
    else processing_mode
  else processing_mode.

(** [main_ui], lines 153-211.  The write of lines 178-180 is taken to
    succeed. *)
Definition main_ui (w : Widgets) : M unit :=
  emit (st_title "Multimodal AI Assistant") ;;
  let uploaded_file := file_uploader w in
  let processing_mode := mode_label (selectbox w) in
  match uploaded_file with
  | None => ret tt
  | Some uploaded_file =>
      emit (os_makedirs "temp") ;;
      emit (file_write (Py.path_join "temp" (name uploaded_file))
                       (getvalue uploaded_file)) ;;
      let file_path := Py.path_join "temp" (name uploaded_file) in
      let file_extension := file_extension_of (name uploaded_file) in
      let processing_mode := auto_detect processing_mode file_extension in
      if (processing_mode =? "Question Answering") && (file_extension =? ".pdf") then
        render_pdf_chat_interface w file_path
      else if (processing_mode =? "Transcription")
              && Py.is_in file_extension [".mp3"; ".wav"; ".mp4"; ".avi"] then
        load_audio_transcriber ;;
        a <- gets (fun s => audio_transcriber (self s)) ;;
        match a with
        | Some h =>
            transcription <- transcribe_ h file_path ;;
            emit (st_subheader "Transcription") ;;
            emit (st_write transcription)
        | None => ret tt
        end
      else if (processing_mode =? "Image Description")
              && Py.is_in file_extension [".jpg"; ".jpeg"; ".png"] then
        load_image_description_generator ;;
        g <- gets (fun s => image_description_generator (self s)) ;;
        match g with
        | Some h =>
            description <- generate_description_ h file_path ;;
            emit (st_subheader "Image Description") ;;
            emit (st_write description)
        | None => ret tt
        end
      else ret tt
  end.

(** [run], lines 213-219. *)
Definition run (w : Widgets) : M unit :=
  render_sidebar w ;;
  main_ui w.

(** [__init__], lines 12-35: the keys that are missing in the store are
    set, the three models start at [None].  [uuid4] is the text of the
    identifier that [uuid.uuid4()] draws. *)
Definition __init__ (uuid4 : string) (store : Store) (tr : list Event) : State :=
  {| st := {| session_id :=
                match stored_session_id store with
                | None => uuid4
                | Some v => v
                end;
              pdf_chat_messages :=
                match stored_pdf_chat_messages store with
                | None => []
                | Some v => v
                end;
              current_pdf_path :=
                match stored_current_pdf_path store with
                | None => None
                | Some v => v
                end;
              google_api_key :=
                match stored_google_api_key store with
                | None => None
                | Some v => v
                end |};
     self := {| audio_transcriber := None;
                pdf_chatbot := None;
                image_description_generator := None |};
     trace := tr |}.

(** The store that an execution leaves behind. *)
Definition persisted (s : State) : Store :=
  {| stored_session_id := Some (session_id (st s));
     stored_pdf_chat_messages := Some (pdf_chat_messages (st s));
     stored_current_pdf_path := Some (current_pdf_path (st s));
     stored_google_api_key := Some (google_api_key (st s)) |}.

(** [main], lines 221-223: one execution of the script. *)
Definition main (uuid4 : string) (w : Widgets) (store : Store) (tr : list Event)
  : Result unit * State :=
  let assistant := __init__ uuid4 store tr in
  run w assistant.

(** A session: the executions of the script, one per interaction, each
    with the values of its widgets, over the store that the one before
    has left.  An execution that ended in an exception leaves the store
    as it was at that point, too. *)
Fixpoint session (uuid4 : string) (ws : list Widgets) (store : Store) (tr : list Event)
  : Store * list Event :=
  match ws with
  | [] => (store, tr)
  | w :: ws' =>
      let s := final (main uuid4 w store tr) in
      session uuid4 ws' (persisted s) (trace s)
  end.

(** Calls of the methods on one object, in sequence. *)
Inductive Call : Type :=
| do_load_audio_transcriber
| do_load_pdf_chatbot (pdf_path : string)
| do_load_image_description_generator
| do_render_sidebar (w : Widgets)
| do_render_pdf_chat_interface (w : Widgets) (file_path : string)
| do_main_ui (w : Widgets)
| do_run (w : Widgets).

Definition perform (c : Call) (s : State) : State :=
  match c with
  | do_load_audio_transcriber => final (load_audio_transcriber s)
  | do_load_pdf_chatbot p => final (load_pdf_chatbot p s)
  | do_load_image_description_generator => final (load_image_description_generator s)
  | do_render_sidebar w => final (render_sidebar w s)
  | do_render_pdf_chat_interface w p => final (render_pdf_chat_interface w p s)
  | do_main_ui w => final (main_ui w s)
  | do_run w => final (run w s)
  end.

Definition perform_all (cs : list Call) (s : State) : State :=
  fold_left (fun s c => perform c s) cs s.

End Methods.

(** ** The routing table of the specification

    The mode that Auto Detect stands for, by extension, and the extensions
    that each mode accepts, as the data model of the specification lists
    them; the script itself has chained conditions instead. *)

Definition autodetect_table : list (string * Mode) :=
  [ (".pdf", QuestionAnswering);
    (".jpg", ImageDescription); (".jpeg", ImageDescription); (".png", ImageDescription);
    (".mp3", Transcription); (".wav", Transcription);
    (".mp4", Transcription); (".avi", Transcription) ].

Fixpoint table_lookup (ext : string) (t : list (string * Mode)) : option Mode :=
  match t with
  | [] => None
  | (k, m) :: r => if ext =? k then Some m else table_lookup ext r
  end.

Definition mode_extensions (m : Mode) : list string :=
  match m with
  | AutoDetect => map fst autodetect_table
  | QuestionAnswering => [".pdf"]
  | Transcription => [".mp3"; ".wav"; ".mp4"; ".avi"]
  | ImageDescription => [".jpg"; ".jpeg"; ".png"]
  end.

Definition with_selectbox (m : Mode) (w : Widgets) : Widgets :=
  {| text_input := text_input w;
     button := button w;
     file_uploader := file_uploader w;
     selectbox := m;
     chat_input := chat_input w |}.

(** The state of [main_ui] once the upload is on disk and nothing else has
    been done. *)
Definition uploaded_only (f : UploadedFile) (s : State) : State :=
  record (file_write (Py.path_join "temp" (name f)) (getvalue f))
    (record (os_makedirs "temp")
       (record (st_title "Multimodal AI Assistant") s)).

(** The flow that lines 196-206 dispatch to, if any. *)
Definition routed (m : Mode) (file_extension : string) : option Mode :=
  let processing_mode := auto_detect (mode_label m) file_extension in
  if (processing_mode =? "Question Answering") && (file_extension =? ".pdf") then
    Some QuestionAnswering
  else if (processing_mode =? "Transcription")
          && Py.is_in file_extension [".mp3"; ".wav"; ".mp4"; ".avi"] then
    Some Transcription
  else if (processing_mode =? "Image Description")
          && Py.is_in file_extension [".jpg"; ".jpeg"; ".png"] then
    Some ImageDescription
  else None.

(** The state in which [load_pdf_chatbot] calls the constructor: lines 62-64
    have been executed. *)
Definition on_pdf_change (pdf_path : string) (s : State) : State :=
  if Py.differs (current_pdf_path (st s)) pdf_path then
    set_current_pdf_path (Some pdf_path) (set_pdf_chat_messages [] s)
  else s.

(** What [load_pdf_chatbot] makes of the constructor's result [r], obtained
    in state [s1]: lines 66-74. *)
Definition pdf_chatbot_built (pdf_path : string) (r : Result PDFChatbot) (s1 : State)
  : Result (option PDFChatbot) * State :=
  let s2 := record (call_PDFChatbot pdf_path (google_api_key (st s1)) r) s1 in
  match r with
  | Ok h =>
      (Ok (Some h),
       record (st_success "PDF Chatbot initialized successfully!")
         (set_pdf_chatbot (Some h) s2))
  | Raise e =>
      (Ok None, record (st_error ("Failed to load PDF Chatbot: " ++ e)) s2)
  | Exit e => (Exit e, s2)
  end.

(** The body of the loop that replays the transcript, lines 124-126. *)
Definition shown (m : Message) : M unit :=
  emit (st_chat_message (role m)) ;; emit (st_markdown (content m)).

(** ** Properties of computations *)

(** [m] takes every state to one that [R] relates to it, whether it returns
    or raises. *)
Definition respects (R : State -> State -> Prop) {A : Type} (m : M A) : Prop :=
  forall s, R s (final (m s)).

(** [m] never lets an exception escape. *)
Definition returns {A : Type} (m : M A) : Prop :=
  forall s, exists a, outcome (m s) = Ok a.

(** [m] lets no exception that derives from [Exception] escape. *)
Definition catches {A : Type} (m : M A) : Prop :=
  forall s e, outcome (m s) <> Raise e.

(** Number of the events of a trace that satisfy [p]. *)
Definition count (p : Event -> bool) (tr : list Event) : nat :=
  List.length (filter p tr).

Definition is_call_AudioTranscriber (e : Event) : bool :=
  match e with
  | call_AudioTranscriber _ => true
  | _ => false
  end.

Definition is_built_AudioTranscriber (e : Event) : bool :=
  match e with
  | call_AudioTranscriber (Ok _) => true
  | _ => false
  end.

Definition is_call_QwenVLDescriptionGenerator (e : Event) : bool :=
  match e with
  | call_QwenVLDescriptionGenerator _ => true
  | _ => false
  end.

Definition is_built_QwenVLDescriptionGenerator (e : Event) : bool :=
  match e with
  | call_QwenVLDescriptionGenerator (Ok _) => true
  | _ => false
  end.

Definition is_collaborator_call (e : Event) : bool :=
  match e with
  | call_AudioTranscriber _ | call_PDFChatbot _ _ _
  | call_QwenVLDescriptionGenerator _ | call_transcribe _ _ _
  | call_chat _ _ _ _ | call_clear_history _ _
  | call_generate_description _ _ _ => true
  | _ => false
  end.

(** A handle is built lazily and at most once: while it is set it stays the
    same object and its constructor is not called; while it is not, it stays
    so or one construction succeeds and sets it. *)
Definition built_once {H : Type} (handle : State -> option H)
    (is_call is_built : Event -> bool) (s s' : State) : Prop :=
  match handle s with
  | Some h =>
      handle s' = Some h
      /\ count is_call (trace s') = count is_call (trace s)
      /\ count is_built (trace s') = count is_built (trace s)
  | None =>
      (handle s' = None /\ count is_built (trace s') = count is_built (trace s))
      \/ (exists h, handle s' = Some h
                    /\ count is_built (trace s') = S (count is_built (trace s)))
  end.

Definition audio_once : State -> State -> Prop :=
  built_once (fun s => audio_transcriber (self s))
             is_call_AudioTranscriber is_built_AudioTranscriber.

Definition image_once : State -> State -> Prop :=
  built_once (fun s => image_description_generator (self s))
             is_call_QwenVLDescriptionGenerator is_built_QwenVLDescriptionGenerator.

(** The session state is as it was. *)
Definition same_session_state (s s' : State) : Prop := st s' = st s.

Definition same_google_api_key (s s' : State) : Prop :=
  google_api_key (st s') = google_api_key (st s).

Definition same_current_pdf_path (s s' : State) : Prop :=
  current_pdf_path (st s') = current_pdf_path (st s).

(** A credential that is set stays set. *)
Definition keeps_credential (s s' : State) : Prop :=
  Py.truthy (google_api_key (st s)) = true ->
  Py.truthy (google_api_key (st s')) = true.

Definition credential_stored (store : Store) : bool :=
  match stored_google_api_key store with
  | Some v => Py.truthy v
  | None => false
  end.

(** The state after one turn of question and answer with the chatbot [h],
    lines 131-151, from the state [s]. *)
Definition asked (C : Collaborators) (h : PDFChatbot) (prompt : string) (s : State)
  : State :=
  let s1 := set_pdf_chat_messages
              (pdf_chat_messages (st s) ++ [{| role := user; content := prompt |}]) s in
  let s2 := record (st_spinner "Thinking...")
              (record (st_chat_message assistant)
                 (record (st_markdown prompt)
                    (record (st_chat_message user) s1))) in
  let sid := session_id (st s2) in
  let response := chat_answer C s2 h prompt sid in
  let s3 := record (st_markdown response)
              (record (call_chat h prompt sid response) s2) in
  set_pdf_chat_messages
    (pdf_chat_messages (st s3) ++ [{| role := assistant; content := response |}]) s3.

(** ** Concrete collaborators, widgets and states *)

(** Collaborators whose constructors succeed; an object is numbered by the
    length of the trace at its construction. *)
Definition working : Collaborators :=
  {| new_AudioTranscriber := fun s => Ok (AudioTranscriber_at (List.length (trace s)));
     new_PDFChatbot := fun s _ _ => Ok (PDFChatbot_at (List.length (trace s)));
     new_QwenVLDescriptionGenerator :=
       fun s => Ok (QwenVLDescriptionGenerator_at (List.length (trace s)));
     transcribe := fun _ _ _ => "good morning";
     chat_answer := fun _ _ _ _ => "It is a report.";
     generate_description := fun _ _ _ => "a cat on a sofa" |}.

(** Collaborators whose constructors raise. *)
Definition broken : Collaborators :=
  {| new_AudioTranscriber := fun _ => Raise "no model";
     new_PDFChatbot := fun _ _ _ => Raise "bad key";
     new_QwenVLDescriptionGenerator := fun _ => Raise "no GPU";
     transcribe := fun _ _ _ => "";
     chat_answer := fun _ _ _ _ => "";
     generate_description := fun _ _ _ => "" |}.

(** Collaborators whose constructors are interrupted. *)
Definition interrupted : Collaborators :=
  {| new_AudioTranscriber := fun _ => Exit "KeyboardInterrupt";
     new_PDFChatbot := fun _ _ _ => Exit "SystemExit";
     new_QwenVLDescriptionGenerator := fun _ => Exit "KeyboardInterrupt";
     transcribe := fun _ _ _ => "";
     chat_answer := fun _ _ _ _ => "";
     generate_description := fun _ _ _ => "" |}.

Definition empty_store : Store :=
  {| stored_session_id := None;
     stored_pdf_chat_messages := None;
     stored_current_pdf_path := None;
     stored_google_api_key := None |}.

Definition upload (file_name : string) (m : Mode) (prompt : option string) : Widgets :=
  {| text_input := "";
     button := false;
     file_uploader := Some {| name := file_name; getvalue := [] |};
     selectbox := m;
     chat_input := prompt |}.

Definition sidebar_only (key : string) (clear : bool) : Widgets :=
  {| text_input := key;
     button := clear;
     file_uploader := None;
     selectbox := AutoDetect;
     chat_input := None |}.

(** A new assistant in a new session, without and with a credential. *)
Definition fresh : State := __init__ "session-1" empty_store [].

Definition keyed : State := set_google_api_key (Some "secret") fresh.

(** An assistant with a chatbot and one turn on [temp/old.pdf]. *)
Definition chatting : State :=
  set_pdf_chatbot (Some (PDFChatbot_at 7))
    (set_current_pdf_path (Some "temp/old.pdf")
       (set_pdf_chat_messages
          [ {| role := user; content := "Who wrote it?" |};
            {| role := assistant; content := "The board." |} ] keyed)).

(** ** Further notions: sessions, transcripts and the kinds of calls *)

(** A session in which every execution comes with the identifier that
    [uuid.uuid4()] would draw in it. *)
Fixpoint executions (C : Collaborators) (runs : list (string * Widgets))
    (store : Store) (tr : list Event) : Store * list Event :=
  match runs with
  | [] => (store, tr)
  | (uuid4, w) :: runs' =>
      let s := final (main C uuid4 w store tr) in
      executions C runs' (persisted s) (trace s)
  end.

Definition Role_eqb (a b : Role) : bool :=
  match a, b with
  | user, user | assistant, assistant => true
  | _, _ => false
  end.

(** A transcript made of turns: a user entry, then an assistant entry. *)
Fixpoint turns (messages : list Message) : bool :=
  match messages with
  | [] => true
  | q :: a :: r => Role_eqb (role q) user && Role_eqb (role a) assistant && turns r
  | _ => false
  end.

Definition stored_turns (store : Store) : bool :=
  match stored_pdf_chat_messages store with
  | Some messages => turns messages
  | None => true
  end.

(** What the replay of a transcript shows, latest first. *)
Definition replayed (messages : list Message) : list Event :=
  rev (flat_map (fun m => [st_chat_message (role m); st_markdown (content m)])
         messages).

Definition is_call_PDFChatbot (e : Event) : bool :=
  match e with
  | call_PDFChatbot _ _ _ => true
  | _ => false
  end.

Definition is_call_clear_history (e : Event) : bool :=
  match e with
  | call_clear_history _ _ => true
  | _ => false
  end.

(** The events of each of the three collaborators. *)
Definition is_transcriber_event (e : Event) : bool :=
  match e with
  | call_AudioTranscriber _ | call_transcribe _ _ _ => true
  | _ => false
  end.

Definition is_chatbot_event (e : Event) : bool :=
  match e with
  | call_PDFChatbot _ _ _ | call_chat _ _ _ _ | call_clear_history _ _ => true
  | _ => false
  end.

Definition is_describer_event (e : Event) : bool :=
  match e with
  | call_QwenVLDescriptionGenerator _ | call_generate_description _ _ _ => true
  | _ => false
  end.

(** As many events that satisfy [p] as before. *)
Definition same_count (p : Event -> bool) (s s' : State) : Prop :=
  count p (trace s') = count p (trace s).

Definition same_session_id (s s' : State) : Prop :=
  session_id (st s') = session_id (st s).

(** The trace has grown: what was there is still there, and the new events
    are in front. *)
Definition extends (s s' : State) : Prop :=
  exists l, trace s' = (l ++ trace s)%list.

(** Collaborators whose chatbot can always be constructed. *)
Definition chatbot_constructible (C : Collaborators) : Prop :=
  forall s pdf_path key, exists h, new_PDFChatbot C s pdf_path key = Ok h.

(** The two flows of [main_ui] that have no method of their own: lines
    200-204 and lines 207-211. *)
Definition transcribing (C : Collaborators) (file_path : string) : M unit :=
  load_audio_transcriber C ;;
  a <- gets (fun s => audio_transcriber (self s)) ;;
  match a with
  | Some h =>
      transcription <- transcribe_ C h file_path ;;
      emit (st_subheader "Transcription") ;;
      emit (st_write transcription)
  | None => ret tt
  end.

Definition describing (C : Collaborators) (file_path : string) : M unit :=
  load_image_description_generator C ;;
  g <- gets (fun s => image_description_generator (self s)) ;;
  match g with
  | Some h =>
      description <- generate_description_ C h file_path ;;
      emit (st_subheader "Image Description") ;;
      emit (st_write description)
  | None => ret tt
  end.

(** The widgets of an execution that puts a question on the document at
    [pdf_path], without the clear-history button. *)
Definition asks (pdf_path : string) (w : Widgets) : Prop :=
  button w = false
  /\ exists f prompt,
       file_uploader w = Some f
       /\ Py.path_join "temp" (name f) = pdf_path
       /\ routed (selectbox w) (file_extension_of (name f)) = Some QuestionAnswering
       /\ chat_input w = Some prompt
       /\ Py.truthy_str prompt = true.

(** [render_pdf_chat_interface] from the assignment of line 118 on, [bot]
    being what the loader has returned. *)
Definition render_pdf_chat_after (C : Collaborators) (w : Widgets)
    (bot : option PDFChatbot) : M unit :=
  modify (set_pdf_chatbot bot) ;;
  match bot with
  | None => ret tt
  | Some h =>
      messages <- gets (fun s => pdf_chat_messages (st s)) ;;
      for_each messages (fun message =>
        emit (st_chat_message (role message)) ;;
        emit (st_markdown (content message))) ;;
      match chat_input w with
      | Some prompt =>
          if Py.truthy_str prompt then
            old <- gets (fun s => pdf_chat_messages (st s)) ;;
            modify (set_pdf_chat_messages
                      (old ++ [{| role := user; content := prompt |}])) ;;
            emit (st_chat_message user) ;;
            emit (st_markdown prompt) ;;
            emit (st_chat_message assistant) ;;
            emit (st_spinner "Thinking...") ;;
            sid <- gets (fun s => session_id (st s)) ;;
            response <- chat_ C h prompt sid ;;
            emit (st_markdown response) ;;
            old' <- gets (fun s => pdf_chat_messages (st s)) ;;
            modify (set_pdf_chat_messages
                      (old' ++ [{| role := assistant; content := response |}]))
          else ret tt
      | None => ret tt
      end
  end.

(** A transcript made of turns stays one. *)
Definition keeps_turns (s s' : State) : Prop :=
  turns (pdf_chat_messages (st s)) = true ->
  turns (pdf_chat_messages (st s')) = true.

(** The character [c] occurs in [s]. *)
Fixpoint occurs (c : ascii) (s : string) : bool :=
  match s with
  | EmptyString => false
  | String x r => Ascii.eqb x c || occurs c r
  end.

(** The widgets of an execution in which nothing is entered, pressed or
    uploaded. *)
Definition idle (w : Widgets) : Prop :=
  text_input w = "" /\ button w = false /\ file_uploader w = None.

(** ** The file names, on examples *)

Example splitext_report : Py.splitext "report.pdf" = ("report", ".pdf").
Proof. reflexivity. Qed.

Example splitext_hidden : Py.splitext ".pdf" = (".pdf", "").
Proof. reflexivity. Qed.

Example splitext_dotted_directory : Py.splitext "a.b/c" = ("a.b/c", "").
Proof. reflexivity. Qed.

Example splitext_last_dot : Py.splitext "archive.tar.gz" = ("archive.tar", ".gz").
Proof. reflexivity. Qed.

Example file_extension_of_upper : file_extension_of "Clip.MP4" = ".mp4".
Proof. reflexivity. Qed.

Example file_extension_of_hidden : file_extension_of ".pdf" = "".
Proof. reflexivity. Qed.

Example path_join_relative : Py.path_join "temp" "report.pdf" = "temp/report.pdf".
Proof. reflexivity. Qed.

Example path_join_absolute : Py.path_join "temp" "/srv/x.pdf" = "/srv/x.pdf".
Proof. reflexivity. Qed.

Example auto_detect_txt : auto_detect "Auto Detect" ".txt" = "Auto Detect".
Proof. reflexivity. Qed.

Example routed_hidden_pdf : routed AutoDetect (file_extension_of ".pdf") = None.
Proof. reflexivity. Qed.

(** ** Routing *)

Lemma main_ui_no_upload C w s :
  file_uploader w = None ->
  main_ui C w s = (Ok tt, record (st_title "Multimodal AI Assistant") s).
Proof.
  intros Hf. unfold main_ui. rewrite Hf. reflexivity.
Qed.

(** [main_ui] as a dispatch on [routed]. *)
Lemma main_ui_routed C w f s :
  file_uploader w = Some f ->
  main_ui C w s =
  let file_path := Py.path_join "temp" (name f) in
  let s0 := uploaded_only f s in
  match routed (selectbox w) (file_extension_of (name f)) with
  | Some QuestionAnswering => render_pdf_chat_interface C w file_path s0
  | Some Transcription =>
      (load_audio_transcriber C ;;
       a <- gets (fun s => audio_transcriber (self s)) ;;
       match a with
       | Some h =>
           transcription <- transcribe_ C h file_path ;;
           emit (st_subheader "Transcription") ;;
           emit (st_write transcription)
       | None => ret tt
       end) s0
  | Some ImageDescription =>
      (load_image_description_generator C ;;
       g <- gets (fun s => image_description_generator (self s)) ;;
       match g with
       | Some h =>
           description <- generate_description_ C h file_path ;;
           emit (st_subheader "Image Description") ;;
           emit (st_write description)
       | None => ret tt
       end) s0
  | _ => (Ok tt, s0)
  end.
Proof.
  intros Hf. unfold main_ui, routed. rewrite Hf.
  cbv beta zeta.
  destruct ((auto_detect (mode_label (selectbox w)) (file_extension_of (name f))
             =? "Question Answering") && (file_extension_of (name f) =? ".pdf")).
  { reflexivity. }
  destruct ((auto_detect (mode_label (selectbox w)) (file_extension_of (name f))
             =? "Transcription")
            && Py.is_in (file_extension_of (name f)) [".mp3"; ".wav"; ".mp4"; ".avi"]).
  { reflexivity. }
  destruct ((auto_detect (mode_label (selectbox w)) (file_extension_of (name f))
             =? "Image Description")
            && Py.is_in (file_extension_of (name f)) [".jpg"; ".jpeg"; ".png"]).
  { reflexivity. }
  reflexivity.
Qed.

(** The chained conditions of the script against the table. *)
Lemma routed_auto_detect ext :
  routed AutoDetect ext = table_lookup ext autodetect_table
  /\ auto_detect "Auto Detect" ext =
     match table_lookup ext autodetect_table with
     | Some m => mode_label m
     | None => "Auto Detect"
     end.
Proof.
  unfold routed, auto_detect, Py.is_in. simpl.
  destruct (String.eqb_spec ext ".pdf") as [->|_]; [split; reflexivity|].
  destruct (String.eqb_spec ext ".jpg") as [->|_]; [split; reflexivity|].
  destruct (String.eqb_spec ext ".jpeg") as [->|_]; [split; reflexivity|].
  destruct (String.eqb_spec ext ".png") as [->|_]; [split; reflexivity|].
  destruct (String.eqb_spec ext ".mp3") as [->|_]; [split; reflexivity|].
  destruct (String.eqb_spec ext ".wav") as [->|_]; [split; reflexivity|].
  destruct (String.eqb_spec ext ".mp4") as [->|_]; [split; reflexivity|].
  destruct (String.eqb_spec ext ".avi") as [->|_]; [split; reflexivity|].
  split; reflexivity.
Qed.

(** A mode that was selected by hand is routed when the extension is one of
    its own, and only then. *)
Lemma routed_selected m ext :
  m <> AutoDetect ->
  routed m ext = if Py.is_in ext (mode_extensions m) then Some m else None.
Proof.
  intros Hm. unfold routed, auto_detect, Py.is_in.
  destruct m; try congruence; simpl.
  all: match goal with |- context [if ?b then _ else _] => destruct b end;
    reflexivity.
Qed.

Lemma table_lookup_is_in ext :
  table_lookup ext autodetect_table = None <->
  Py.is_in ext (mode_extensions AutoDetect) = false.
Proof.
  unfold Py.is_in. simpl.
  destruct (ext =? ".pdf"), (ext =? ".jpg"), (ext =? ".jpeg"), (ext =? ".png"),
           (ext =? ".mp3"), (ext =? ".wav"), (ext =? ".mp4"), (ext =? ".avi");
    simpl; split; congruence.
Qed.

Lemma routed_incompatible m ext :
  Py.is_in ext (mode_extensions m) = false -> routed m ext = None.
Proof.
  intros H. destruct (Mode_eq_dec m AutoDetect) as [->|Hm].
  - rewrite (proj1 (routed_auto_detect ext)). now apply table_lookup_is_in.
  - rewrite routed_selected by assumption. now rewrite H.
Qed.

(** ** Reasoning on computations *)

Lemma final_bind {A B} (m : M A) (k : A -> M B) s :
  final (bind m k s) =
  match outcome (m s) with
  | Ok a => final (k a (final (m s)))
  | Raise _ | Exit _ => final (m s)
  end.
Proof.
  unfold bind, final, outcome. destruct (m s) as [[a|e|e] s']; reflexivity.
Qed.

Lemma final_pair {A} (r : Result A) (s : State) : final (r, s) = s.
Proof. reflexivity. Qed.

Section Respects.

Variable R : State -> State -> Prop.
Hypothesis R_refl : forall s, R s s.
Hypothesis R_trans : forall s1 s2 s3, R s1 s2 -> R s2 s3 -> R s1 s3.

Lemma respects_ret {A} (a : A) : respects R (ret a).
Proof. intros s. apply R_refl. Qed.

Lemma respects_gets {A} (f : State -> A) : respects R (gets f).
Proof. intros s. apply R_refl. Qed.

Lemma respects_modify (f : State -> State) :
  (forall s, R s (f s)) -> respects R (modify f).
Proof. intros H s. apply H. Qed.

Lemma respects_bind {A B} (m : M A) (k : A -> M B) :
  respects R m -> (forall a, respects R (k a)) -> respects R (bind m k).
Proof.
  intros Hm Hk s. rewrite final_bind.
  destruct (outcome (m s)).
  - eapply R_trans; [apply Hm | apply Hk].
  - apply Hm.
  - apply Hm.
Qed.

Lemma respects_try_except {A} (body : M A) (handler : Exception -> M A) :
  respects R body -> (forall e, respects R (handler e)) ->
  respects R (try_except body handler).
Proof.
  intros Hb Hh s. unfold try_except, final.
  specialize (Hb s). unfold final in Hb.
  destruct (body s) as [[a|e|e] s']; simpl in *.
  - exact Hb.
  - eapply R_trans; [exact Hb | apply Hh].
  - exact Hb.
Qed.

Lemma respects_for_each {A} (l : list A) (body : A -> M unit) :
  (forall x, respects R (body x)) -> respects R (for_each l body).
Proof.
  intros Hb. induction l as [|x r IH]; simpl.
  - apply respects_ret.
  - apply respects_bind; [apply Hb | intros _; exact IH].
Qed.

(** A call of a collaborator's method records one event. *)
Lemma respects_recording {A} (f : State -> Result A) (ev : State -> Event) :
  (forall s, R s (record (ev s) s)) ->
  respects R (fun s => (f s, record (ev s) s)).
Proof. intros H s. apply H. Qed.

End Respects.

Lemma returns_ret {A} (a : A) : returns (ret a).
Proof. intros s. now exists a. Qed.

Lemma returns_gets {A} (f : State -> A) : returns (gets f).
Proof. intros s. now exists (f s). Qed.

Lemma returns_modify (f : State -> State) : returns (modify f).
Proof. intros s. now exists tt. Qed.

Lemma returns_bind {A B} (m : M A) (k : A -> M B) :
  returns m -> (forall a, returns (k a)) -> returns (bind m k).
Proof.
  intros Hm Hk s. destruct (Hm s) as [a Ha].
  unfold bind, outcome in *. destruct (m s) as [r s']; simpl in Ha; subst r.
  apply Hk.
Qed.

Lemma returns_for_each {A} (l : list A) (body : A -> M unit) :
  (forall x, returns (body x)) -> returns (for_each l body).
Proof.
  intros Hb. induction l as [|x r IH]; simpl.
  - apply returns_ret.
  - apply returns_bind; [apply Hb | intros _; exact IH].
Qed.

Lemma returns_recording {A} (f : State -> A) (ev : State -> Event) :
  returns (fun s => (Ok (f s), record (ev s) s)).
Proof. intros s. now exists (f s). Qed.

(** Goals [respects R m] and [returns m] are proved along the structure of
    [m]; for the former, [leaf] closes what is left about one assignment or
    one event, and the methods that need an argument of their own are taken
    from the hints. *)
Create HintDb methods.

Ltac step_respects R_refl R_trans leaf :=
  lazymatch goal with
  | |- respects _ (ret _) => apply respects_ret; exact R_refl
  | |- respects _ (gets _) => apply respects_gets; exact R_refl
  | |- respects _ (bind _ _) =>
      apply respects_bind; [exact R_trans | | intros ?]
  | |- respects _ (try_except _ _) =>
      apply respects_try_except; [exact R_trans | | intros ?]
  | |- respects _ (for_each _ _) =>
      apply respects_for_each; [exact R_refl | exact R_trans | intros ?]
  | |- respects _ (emit _) => apply respects_modify; intros ?; leaf
  | |- respects _ (modify _) => apply respects_modify; intros ?; leaf
  | |- respects _ (clear_history_ _ _) => apply respects_modify; intros ?; leaf
  | |- respects _ (match ?x with _ => _ end) => destruct x eqn:?
  | |- respects _ (AudioTranscriber_ _) =>
      unfold AudioTranscriber_; apply respects_recording; intros ?; leaf
  | |- respects _ (PDFChatbot_ _ _ _) =>
      unfold PDFChatbot_; apply respects_recording; intros ?; leaf
  | |- respects _ (QwenVLDescriptionGenerator_ _) =>
      unfold QwenVLDescriptionGenerator_; apply respects_recording; intros ?; leaf
  | |- respects _ (transcribe_ _ _ _) =>
      unfold transcribe_; apply respects_recording; intros ?; leaf
  | |- respects _ (chat_ _ _ _ _) =>
      unfold chat_; apply respects_recording; intros ?; leaf
  | |- respects _ (generate_description_ _ _ _) =>
      unfold generate_description_; apply respects_recording; intros ?; leaf
  end.

Ltac prove_respects R_refl R_trans leaf :=
  cbv zeta;
  repeat first
    [ solve [auto with methods nocore]
    | step_respects R_refl R_trans leaf ].

Ltac step_returns :=
  lazymatch goal with
  | |- returns (ret _) => apply returns_ret
  | |- returns (gets _) => apply returns_gets
  | |- returns (emit _) => apply returns_modify
  | |- returns (modify _) => apply returns_modify
  | |- returns (clear_history_ _ _) => apply returns_modify
  | |- returns (bind _ _) => apply returns_bind; [| intros ?]
  | |- returns (for_each _ _) => apply returns_for_each; intros ?
  | |- returns (match ?x with _ => _ end) => destruct x
  | |- returns (transcribe_ _ _ _) => apply returns_recording
  | |- returns (chat_ _ _ _ _) => apply returns_recording
  | |- returns (generate_description_ _ _ _) => apply returns_recording
  end.

Ltac prove_returns :=
  cbv zeta;
  repeat first [ solve [auto with methods nocore] | step_returns ].

(** ** No exception escapes a method *)

Lemma render_sidebar_returns w : returns (render_sidebar w).
Proof. unfold render_sidebar. prove_returns. Qed.

(** ** What the methods leave as it is *)

Ltac leaf_refl := reflexivity.

Lemma same_session_state_refl s : same_session_state s s.
Proof. reflexivity. Qed.

Lemma same_session_state_trans s1 s2 s3 :
  same_session_state s1 s2 -> same_session_state s2 s3 -> same_session_state s1 s3.
Proof. unfold same_session_state. congruence. Qed.

Lemma same_google_api_key_refl s : same_google_api_key s s.
Proof. reflexivity. Qed.

Lemma same_google_api_key_trans s1 s2 s3 :
  same_google_api_key s1 s2 -> same_google_api_key s2 s3 -> same_google_api_key s1 s3.
Proof. unfold same_google_api_key. congruence. Qed.

Lemma same_current_pdf_path_refl s : same_current_pdf_path s s.
Proof. reflexivity. Qed.

Lemma same_current_pdf_path_trans s1 s2 s3 :
  same_current_pdf_path s1 s2 -> same_current_pdf_path s2 s3 ->
  same_current_pdf_path s1 s3.
Proof. unfold same_current_pdf_path. congruence. Qed.

Lemma keeps_credential_refl s : keeps_credential s s.
Proof. intros H. exact H. Qed.

Lemma keeps_credential_trans s1 s2 s3 :
  keeps_credential s1 s2 -> keeps_credential s2 s3 -> keeps_credential s1 s3.
Proof. unfold keeps_credential. auto. Qed.

Ltac session_state_kept :=
  prove_respects same_session_state_refl same_session_state_trans leaf_refl.

Ltac google_api_key_kept :=
  prove_respects same_google_api_key_refl same_google_api_key_trans leaf_refl.

Ltac current_pdf_path_kept :=
  prove_respects same_current_pdf_path_refl same_current_pdf_path_trans leaf_refl.

(** The loaders of the transcriber and of the image describer do not touch
    the session state. *)
Lemma load_audio_transcriber_session_state C :
  respects same_session_state (load_audio_transcriber C).
Proof. unfold load_audio_transcriber. session_state_kept. Qed.

Lemma load_image_description_generator_session_state C :
  respects same_session_state (load_image_description_generator C).
Proof. unfold load_image_description_generator. session_state_kept. Qed.

(** Only the sidebar assigns the credential. *)
Lemma load_pdf_chatbot_google_api_key C pdf_path :
  respects same_google_api_key (load_pdf_chatbot C pdf_path).
Proof. unfold load_pdf_chatbot. google_api_key_kept. Qed.

Lemma load_audio_transcriber_google_api_key C :
  respects same_google_api_key (load_audio_transcriber C).
Proof. unfold load_audio_transcriber. google_api_key_kept. Qed.

Lemma load_image_description_generator_google_api_key C :
  respects same_google_api_key (load_image_description_generator C).
Proof. unfold load_image_description_generator. google_api_key_kept. Qed.

Lemma render_pdf_chat_interface_google_api_key C w file_path :
  respects same_google_api_key (render_pdf_chat_interface C w file_path).
Proof.
  unfold render_pdf_chat_interface, load_pdf_chatbot. google_api_key_kept.
Qed.

Lemma main_ui_google_api_key C w : respects same_google_api_key (main_ui C w).
Proof.
  unfold main_ui, render_pdf_chat_interface, load_pdf_chatbot,
    load_audio_transcriber, load_image_description_generator.
  google_api_key_kept.
Qed.

Lemma render_sidebar_current_pdf_path w :
  respects same_current_pdf_path (render_sidebar w).
Proof. unfold render_sidebar. current_pdf_path_kept. Qed.

Lemma respects_weaken (R R' : State -> State -> Prop) {A} (m : M A) :
  (forall s s', R s s' -> R' s s') -> respects R m -> respects R' m.
Proof. intros HR Hm s. apply HR, Hm. Qed.

Lemma same_google_api_key_keeps_credential s s' :
  same_google_api_key s s' -> keeps_credential s s'.
Proof. unfold same_google_api_key, keeps_credential. now intros ->. Qed.

(** ** The three loaders, case by case *)

Lemma load_audio_transcriber_set C s h :
  audio_transcriber (self s) = Some h ->
  load_audio_transcriber C s = (Ok tt, s).
Proof.
  intros H. unfold load_audio_transcriber, bind, gets. now rewrite H.
Qed.

Lemma load_audio_transcriber_unset C s :
  audio_transcriber (self s) = None ->
  load_audio_transcriber C s =
  let r := new_AudioTranscriber C s in
  let s1 := record (call_AudioTranscriber r) s in
  match r with
  | Ok h =>
      (Ok tt, record (st_success "Audio Transcriber initialized successfully!")
                (set_audio_transcriber (Some h) s1))
  | Raise e =>
      (Ok tt, record (st_error ("Failed to load Audio Transcriber: " ++ e)) s1)
  | Exit e => (Exit e, s1)
  end.
Proof.
  intros H. unfold load_audio_transcriber, bind, gets. rewrite H.
  unfold try_except, bind, AudioTranscriber_. cbv zeta.
  destruct (new_AudioTranscriber C s); reflexivity.
Qed.

Lemma load_image_description_generator_set C s h :
  image_description_generator (self s) = Some h ->
  load_image_description_generator C s = (Ok tt, s).
Proof.
  intros H. unfold load_image_description_generator, bind, gets. now rewrite H.
Qed.

Lemma load_image_description_generator_unset C s :
  image_description_generator (self s) = None ->
  load_image_description_generator C s =
  let r := new_QwenVLDescriptionGenerator C s in
  let s1 := record (call_QwenVLDescriptionGenerator r) s in
  match r with
  | Ok h =>
      (Ok tt, record (st_success "Image Description Generator initialized successfully!")
                (set_image_description_generator (Some h) s1))
  | Raise e =>
      (Ok tt, record (st_error ("Failed to load Image Description Generator: " ++ e)) s1)
  | Exit e => (Exit e, s1)
  end.
Proof.
  intros H. unfold load_image_description_generator, bind, gets. rewrite H.
  unfold try_except, bind, QwenVLDescriptionGenerator_. cbv zeta.
  destruct (new_QwenVLDescriptionGenerator C s); reflexivity.
Qed.

Lemma load_pdf_chatbot_no_key C pdf_path s :
  Py.truthy (google_api_key (st s)) = false ->
  load_pdf_chatbot C pdf_path s =
  (Ok None, record (st_warning "Please enter Google API key first!") s).
Proof.
  intros H. unfold load_pdf_chatbot, bind, gets. now rewrite H.
Qed.

Lemma load_pdf_chatbot_key C pdf_path s :
  Py.truthy (google_api_key (st s)) = true ->
  load_pdf_chatbot C pdf_path s =
  let s1 := on_pdf_change pdf_path s in
  pdf_chatbot_built pdf_path
    (new_PDFChatbot C s1 pdf_path (google_api_key (st s))) s1.
Proof.
  intros H. unfold load_pdf_chatbot, bind, gets. rewrite H. simpl.
  unfold try_except, bind, on_pdf_change, pdf_chatbot_built, PDFChatbot_.
  destruct (Py.differs (current_pdf_path (st s)) pdf_path); simpl;
    match goal with |- context [new_PDFChatbot C ?x ?p ?k] =>
      destruct (new_PDFChatbot C x p k) end; reflexivity.
Qed.

Lemma on_pdf_change_google_api_key pdf_path s :
  google_api_key (st (on_pdf_change pdf_path s)) = google_api_key (st s).
Proof. unfold on_pdf_change. now destruct (Py.differs _ _). Qed.

Lemma on_pdf_change_session_id pdf_path s :
  session_id (st (on_pdf_change pdf_path s)) = session_id (st s).
Proof. unfold on_pdf_change. now destruct (Py.differs _ _). Qed.

Lemma on_pdf_change_current_pdf_path pdf_path s :
  current_pdf_path (st (on_pdf_change pdf_path s)) = Some pdf_path.
Proof.
  unfold on_pdf_change, Py.differs.
  destruct (current_pdf_path (st s)) as [x|] eqn:E; simpl; [|reflexivity].
  destruct (String.eqb_spec x pdf_path); simpl; congruence.
Qed.

Lemma on_pdf_change_pdf_chat_messages pdf_path s :
  pdf_chat_messages (st (on_pdf_change pdf_path s)) =
  if Py.differs (current_pdf_path (st s)) pdf_path then []
  else pdf_chat_messages (st s).
Proof. unfold on_pdf_change. now destruct (Py.differs _ _). Qed.

Lemma on_pdf_change_self pdf_path s :
  self (on_pdf_change pdf_path s) = self s.
Proof. unfold on_pdf_change. now destruct (Py.differs _ _). Qed.

Lemma differs_iff v pdf_path :
  Py.differs v pdf_path = true <-> v <> Some pdf_path.
Proof.
  unfold Py.differs. destruct v as [x|]; [|split; [discriminate|reflexivity]].
  destruct (String.eqb_spec x pdf_path); simpl; split; congruence.
Qed.

(** The replay of the transcript, lines 124-126, shows and changes nothing
    else. *)
Lemma for_each_cons {A} (x : A) (r : list A) (body : A -> M unit) s :
  for_each (x :: r) body s =
  match body x s with
  | (Ok _, s') => for_each r body s'
  | (Raise e, s') => (Raise e, s')
  | (Exit e, s') => (Exit e, s')
  end.
Proof. reflexivity. Qed.

Lemma shown_eq m s :
  shown m s =
  (Ok tt, record (st_markdown (content m)) (record (st_chat_message (role m)) s)).
Proof. reflexivity. Qed.

Lemma replay_returns messages s :
  outcome (for_each messages shown s) = Ok tt.
Proof.
  revert s. induction messages as [|m r IH]; intros s; [reflexivity|].
  rewrite for_each_cons, shown_eq. apply IH.
Qed.

Lemma replay_session_state messages s :
  st (final (for_each messages shown s)) = st s
  /\ self (final (for_each messages shown s)) = self s.
Proof.
  revert s. induction messages as [|m r IH]; intros s; [now split|].
  rewrite for_each_cons, shown_eq.
  destruct (IH (record (st_markdown (content m))
                  (record (st_chat_message (role m)) s))) as [H1 H2].
  split; [rewrite H1 | rewrite H2]; reflexivity.
Qed.

Lemma render_pdf_chat_interface_eq C w file_path s :
  render_pdf_chat_interface C w file_path s =
  match load_pdf_chatbot C file_path s with
  | (Ok None, s1) => (Ok tt, set_pdf_chatbot None s1)
  | (Ok (Some h), s1) =>
      let s2 := final (for_each (pdf_chat_messages (st s1)) shown
                         (set_pdf_chatbot (Some h) s1)) in
      match chat_input w with
      | Some prompt =>
          if Py.truthy_str prompt then (Ok tt, asked C h prompt s2) else (Ok tt, s2)
      | None => (Ok tt, s2)
      end
  | (Raise e, s1) => (Raise e, s1)
  | (Exit e, s1) => (Exit e, s1)
  end.
Proof.
  unfold render_pdf_chat_interface. unfold bind at 1.
  destruct (load_pdf_chatbot C file_path s) as [[[h|]|e|e] s1]; try reflexivity.
  unfold bind at 1. unfold modify at 1. unfold bind at 1. unfold gets at 1.
  unfold bind at 1.
  change (fun message : Message =>
            emit (st_chat_message (role message)) ;;
            emit (st_markdown (content message))) with shown.
  pose proof (replay_returns (pdf_chat_messages (st (set_pdf_chatbot (Some h) s1)))
                (set_pdf_chatbot (Some h) s1)) as Hr.
  unfold outcome, final in *. simpl pdf_chat_messages in *.
  destruct (for_each (pdf_chat_messages (st s1)) shown (set_pdf_chatbot (Some h) s1))
    as [r s2]. simpl in Hr. subst r. cbv zeta. simpl snd.
  destruct (chat_input w) as [prompt|]; [|reflexivity].
  destruct (Py.truthy_str prompt); reflexivity.
Qed.

Lemma asked_pdf_chat_messages C h prompt s :
  exists answer rest,
    pdf_chat_messages (st (asked C h prompt s)) =
    (pdf_chat_messages (st s)
     ++ [ {| role := user; content := prompt |};
          {| role := assistant; content := answer |} ])%list
    /\ trace (asked C h prompt s) =
       st_markdown answer :: call_chat h prompt (session_id (st s)) answer :: rest
    /\ count is_collaborator_call (trace (asked C h prompt s)) =
       S (count is_collaborator_call (trace s)).
Proof.
  unfold asked. cbv zeta. eexists. eexists. simpl.
  rewrite <- app_assoc. repeat split.
Qed.

Lemma table_lookup_sound ext m :
  table_lookup ext autodetect_table = Some m ->
  m <> AutoDetect /\ Py.is_in ext (mode_extensions m) = true.
Proof.
  unfold Py.is_in. simpl.
  repeat match goal with
  | |- (if ?b then _ else _) = _ -> _ =>
      destruct b eqn:?; [intros [= <-]; split; [discriminate|]; simpl|]
  end; try discriminate.
  all: repeat match goal with H : _ = true |- _ => rewrite H; clear H end.
  all: now rewrite ?orb_true_r.
Qed.

(** ** The claims on routing *)

(** C1: with Auto Detect selected, the mode is resolved from the extension
    of the uploaded file name as the table says: Question Answering for
    [.pdf], Image Description for [.jpg], [.jpeg] and [.png], Transcription
    for [.mp3], [.wav], [.mp4] and [.avi], and [main_ui] then does what it
    does when that mode is selected by hand; for any other extension the
    mode stays as it is, no flow is entered and no collaborator is called:
    the upload is written to the scratch directory and that is all. *)
Theorem auto_detect_resolves_by_extension C w f s :
  file_uploader w = Some f ->
  selectbox w = AutoDetect ->
  let ext := file_extension_of (name f) in
  match table_lookup ext autodetect_table with
  | Some m =>
      auto_detect (mode_label (selectbox w)) ext = mode_label m
      /\ routed (selectbox w) ext = Some m
      /\ main_ui C w s = main_ui C (with_selectbox m w) s
  | None =>
      auto_detect (mode_label (selectbox w)) ext = mode_label AutoDetect
      /\ routed (selectbox w) ext = None
      /\ main_ui C w s = (Ok tt, uploaded_only f s)
      /\ count is_collaborator_call (trace (uploaded_only f s)) =
         count is_collaborator_call (trace s)
  end.
Proof.
  intros Hf Hm ext. rewrite Hm.
  destruct (routed_auto_detect ext) as [Hr Ha].
  change (mode_label AutoDetect) with "Auto Detect".
  rewrite Ha, Hr.
  destruct (table_lookup ext autodetect_table) as [m|] eqn:E.
  - split; [reflexivity|]. split; [reflexivity|].
    destruct (table_lookup_sound ext m E) as [Hne Hin].
    rewrite (main_ui_routed C w f s Hf).
    rewrite (main_ui_routed C (with_selectbox m w) f s Hf).
    simpl selectbox. rewrite Hm. fold ext. rewrite Hr, ?E.
    rewrite (routed_selected m ext Hne), Hin.
    destruct m; reflexivity.
  - split; [reflexivity|]. split; [reflexivity|].
    split; [|reflexivity].
    rewrite (main_ui_routed C w f s Hf). cbv zeta. rewrite Hm. fold ext.
    now rewrite Hr, ?E.
Qed.

Lemma auto_detect_resolves_by_extension_witness :
  main_ui working (upload "Report.PDF" AutoDetect None) keyed =
  main_ui working (upload "Report.PDF" QuestionAnswering None) keyed
  /\ main_ui working (upload "notes.txt" AutoDetect None) keyed =
     (Ok tt, uploaded_only {| name := "notes.txt"; getvalue := [] |} keyed).
Proof.
  split.
  - exact (proj2 (proj2
      (auto_detect_resolves_by_extension working
         (upload "Report.PDF" AutoDetect None)
         {| name := "Report.PDF"; getvalue := [] |} keyed eq_refl eq_refl))).
  - exact (proj1 (proj2 (proj2
      (auto_detect_resolves_by_extension working
         (upload "notes.txt" AutoDetect None)
         {| name := "notes.txt"; getvalue := [] |} keyed eq_refl eq_refl)))).
Defined.

(** C6: when the extension of the upload is not one of those of the selected
    mode, [main_ui] enters no flow: it returns, no collaborator is called,
    nothing is shown beyond the title, and the session state and the
    handles are as before; the write of the upload to the scratch directory
    is the only effect. *)
Theorem incompatible_mode_and_extension_is_silent C w f s :
  file_uploader w = Some f ->
  Py.is_in (file_extension_of (name f)) (mode_extensions (selectbox w)) = false ->
  main_ui C w s = (Ok tt, uploaded_only f s)
  /\ st (uploaded_only f s) = st s
  /\ self (uploaded_only f s) = self s
  /\ trace (uploaded_only f s) =
     file_write (Py.path_join "temp" (name f)) (getvalue f)
       :: os_makedirs "temp" :: st_title "Multimodal AI Assistant" :: trace s.
Proof.
  intros Hf Hin. repeat split.
  rewrite (main_ui_routed C w f s Hf). cbv zeta.
  now rewrite (routed_incompatible _ _ Hin).
Qed.

Lemma incompatible_mode_and_extension_is_silent_witness :
  main_ui working (upload "notes.docx.pdf.txt" QuestionAnswering (Some "Why?")) chatting =
  (Ok tt, uploaded_only {| name := "notes.docx.pdf.txt"; getvalue := [] |} chatting).
Proof.
  exact (proj1
    (incompatible_mode_and_extension_is_silent working
       (upload "notes.docx.pdf.txt" QuestionAnswering (Some "Why?"))
       {| name := "notes.docx.pdf.txt"; getvalue := [] |} chatting eq_refl eq_refl)).
Defined.

(** ** The sidebar *)

(** In an execution of the script the sidebar is rendered on an assistant
    that [__init__] has just made, whose chatbot is [None]: the button then
    empties the transcript without a call of [clear_history]. *)
Lemma render_sidebar_of_new_assistant uuid4 store tr w :
  trace (final (render_sidebar w (__init__ uuid4 store tr))) =
  ((if button w then [st_success "Conversation history cleared!"] else [])
   ++ st_sidebar_subheader "Google API Configuration"
   :: st_sidebar_title "Multimodal AI Assistant" :: tr)%list.
Proof.
  unfold render_sidebar, bind, emit, modify, gets, ret. simpl.
  destruct (Py.truthy_str (text_input w)); simpl; destruct (button w); reflexivity.
Qed.

(** C4: the clear-history button of the sidebar empties the transcript
    whether there is a chatbot or not; when there is one, its
    [clear_history] is called with the session identifier before that. *)
Theorem clear_history_resets_transcript w s :
  button w = true ->
  let s' := final (render_sidebar w s) in
  outcome (render_sidebar w s) = Ok tt
  /\ pdf_chat_messages (st s') = []
  /\ trace s' =
     st_success "Conversation history cleared!"
       :: (match pdf_chatbot (self s) with
           | Some h => [call_clear_history h (session_id (st s))]
           | None => []
           end
           ++ st_sidebar_subheader "Google API Configuration"
           :: st_sidebar_title "Multimodal AI Assistant" :: trace s)%list.
Proof.
  intros Hb. unfold render_sidebar, bind, emit, modify, gets, clear_history_, ret.
  simpl. rewrite Hb.
  destruct (Py.truthy_str (text_input w)); simpl;
    destruct (pdf_chatbot (self s)); repeat split.
Qed.

Lemma clear_history_resets_transcript_witness :
  pdf_chat_messages (st (final (render_sidebar (sidebar_only "" true) chatting))) = []
  /\ In (call_clear_history (PDFChatbot_at 7) "session-1")
        (trace (final (render_sidebar (sidebar_only "" true) chatting))).
Proof.
  destruct (clear_history_resets_transcript (sidebar_only "" true) chatting eq_refl)
    as (_ & Hm & Ht).
  split; [exact Hm|]. rewrite Ht. simpl. auto.
Defined.

(** ** The question-answering flow *)

Lemma truthy_false v : Py.truthy v = false <-> v = None \/ v = Some "".
Proof.
  unfold Py.truthy, Py.truthy_str. destruct v as [k|].
  - destruct (String.eqb_spec k ""); simpl; split; intros H.
    + right. now subst.
    + reflexivity.
    + discriminate.
    + destruct H as [H|H]; congruence.
  - split; auto.
Qed.

(** C3: while the stored credential is [None] or empty, the
    question-answering flow warns that the API key is to be entered and
    returns: [load_pdf_chatbot] gives [None] without calling the
    constructor, [render_pdf_chat_interface] leaves [self.pdf_chatbot] at
    [None], calls no collaborator and appends nothing to the transcript. *)
Theorem missing_credential_aborts C w pdf_path s :
  google_api_key (st s) = None \/ google_api_key (st s) = Some "" ->
  let warned := record (st_warning "Please enter Google API key first!") s in
  let s' := final (render_pdf_chat_interface C w pdf_path s) in
  load_pdf_chatbot C pdf_path s = (Ok None, warned)
  /\ render_pdf_chat_interface C w pdf_path s = (Ok tt, set_pdf_chatbot None warned)
  /\ pdf_chatbot (self s') = None
  /\ st s' = st s
  /\ trace s' = st_warning "Please enter Google API key first!" :: trace s
  /\ count is_collaborator_call (trace s') = count is_collaborator_call (trace s).
Proof.
  intros Hk warned s'. apply truthy_false in Hk.
  assert (Hr : render_pdf_chat_interface C w pdf_path s
               = (Ok tt, set_pdf_chatbot None warned)).
  { rewrite render_pdf_chat_interface_eq, (load_pdf_chatbot_no_key C pdf_path s Hk).
    reflexivity. }
  subst s'. rewrite Hr.
  split; [exact (load_pdf_chatbot_no_key C pdf_path s Hk)|].
  repeat split.
Qed.

Lemma missing_credential_aborts_witness :
  render_pdf_chat_interface working (upload "report.pdf" AutoDetect (Some "Why?"))
    "temp/report.pdf" fresh =
  (Ok tt,
   set_pdf_chatbot None (record (st_warning "Please enter Google API key first!") fresh)).
Proof.
  exact (proj1 (proj2
    (missing_credential_aborts working (upload "report.pdf" AutoDetect (Some "Why?"))
       "temp/report.pdf" fresh (or_introl eq_refl)))).
Defined.

(** C9: when the construction of the chatbot raises for a document other
    than the stored one, the loader has already emptied the transcript and
    stored the new path: it reports the error and gives [None], and the
    session state keeps the empty transcript and the new path, with no
    chatbot for them. *)
Theorem failed_construction_keeps_the_reset C w pdf_path s e :
  Py.truthy (google_api_key (st s)) = true ->
  current_pdf_path (st s) <> Some pdf_path ->
  new_PDFChatbot C (on_pdf_change pdf_path s) pdf_path (google_api_key (st s))
  = Raise e ->
  let loaded := load_pdf_chatbot C pdf_path s in
  let rendered := render_pdf_chat_interface C w pdf_path s in
  outcome loaded = Ok None
  /\ pdf_chat_messages (st (final loaded)) = []
  /\ current_pdf_path (st (final loaded)) = Some pdf_path
  /\ pdf_chatbot (self (final loaded)) = pdf_chatbot (self s)
  /\ (exists rest,
        trace (final loaded) =
        st_error ("Failed to load PDF Chatbot: " ++ e) :: rest)
  /\ outcome rendered = Ok tt
  /\ pdf_chat_messages (st (final rendered)) = []
  /\ current_pdf_path (st (final rendered)) = Some pdf_path
  /\ pdf_chatbot (self (final rendered)) = None.
Proof.
  intros Hk Hd Hnew loaded rendered.
  apply differs_iff in Hd.
  assert (Hl : loaded =
               (Ok None,
                record (st_error ("Failed to load PDF Chatbot: " ++ e))
                  (record (call_PDFChatbot pdf_path (google_api_key (st s)) (Raise e))
                     (on_pdf_change pdf_path s)))).
  { subst loaded. rewrite (load_pdf_chatbot_key C pdf_path s Hk). cbv zeta.
    rewrite Hnew. unfold pdf_chatbot_built.
    now rewrite on_pdf_change_google_api_key. }
  assert (Hr : rendered = (Ok tt, set_pdf_chatbot None (final loaded))).
  { subst rendered. rewrite render_pdf_chat_interface_eq. fold loaded.
    now rewrite Hl. }
  rewrite Hr, Hl. unfold final, outcome. simpl.
  rewrite on_pdf_change_pdf_chat_messages, on_pdf_change_current_pdf_path,
    on_pdf_change_self, Hd.
  repeat split. now eexists.
Qed.

Lemma failed_construction_keeps_the_reset_witness :
  pdf_chat_messages (st (final (load_pdf_chatbot broken "temp/new.pdf" chatting))) = []
  /\ current_pdf_path (st (final (load_pdf_chatbot broken "temp/new.pdf" chatting)))
     = Some "temp/new.pdf".
Proof.
  assert (Hne : current_pdf_path (st chatting) <> Some "temp/new.pdf")
    by (vm_compute; discriminate).
  destruct (failed_construction_keeps_the_reset broken
              (upload "new.pdf" AutoDetect None) "temp/new.pdf" chatting "bad key"
              eq_refl Hne eq_refl)
    as (_ & H1 & H2 & _).
  split; [exact H1 | exact H2].
Defined.

(** ** Failures of the constructors *)

Lemma load_audio_transcriber_catches C : catches (load_audio_transcriber C).
Proof.
  intros s e. destruct (audio_transcriber (self s)) as [h|] eqn:Ha.
  - now rewrite (load_audio_transcriber_set C s h Ha).
  - rewrite (load_audio_transcriber_unset C s Ha). cbv zeta.
    destruct (new_AudioTranscriber C s); discriminate.
Qed.

Lemma load_image_description_generator_catches C :
  catches (load_image_description_generator C).
Proof.
  intros s e. destruct (image_description_generator (self s)) as [h|] eqn:Ha.
  - now rewrite (load_image_description_generator_set C s h Ha).
  - rewrite (load_image_description_generator_unset C s Ha). cbv zeta.
    destruct (new_QwenVLDescriptionGenerator C s); discriminate.
Qed.

Lemma load_pdf_chatbot_catches C pdf_path : catches (load_pdf_chatbot C pdf_path).
Proof.
  intros s e. destruct (Py.truthy (google_api_key (st s))) eqn:Hk.
  - rewrite (load_pdf_chatbot_key C pdf_path s Hk). cbv zeta.
    unfold pdf_chatbot_built.
    destruct (new_PDFChatbot C _ pdf_path (google_api_key (st s))); discriminate.
  - now rewrite (load_pdf_chatbot_no_key C pdf_path s Hk).
Qed.

(** C7, as the script has it: an exception of a constructor that derives
    from [Exception] does not leave the loader.  The loader of the
    transcriber, and likewise that of the image describer, records the
    failed call, shows the error with the text of the exception, returns,
    and its handle is [None] as before; so the next call tries again and,
    on a new failure, reports again.  The loader of the chatbot shows the
    error and gives [None], which [render_pdf_chat_interface] stores in
    [self.pdf_chatbot] before it returns, and it does the same when it is
    called again and the constructor fails again.  No loader lets such an
    exception escape, in any state.  An exception that does not derive from
    [Exception] is not caught: it leaves the loader after the failed call,
    with no error shown and the handle as it was. *)
Theorem construction_failure_is_caught C w pdf_path s e :
  (audio_transcriber (self s) = None ->
   new_AudioTranscriber C s = Raise e ->
   let s' := record (st_error ("Failed to load Audio Transcriber: " ++ e))
               (record (call_AudioTranscriber (Raise e)) s) in
   load_audio_transcriber C s = (Ok tt, s')
   /\ audio_transcriber (self s') = None
   /\ forall e', new_AudioTranscriber C s' = Raise e' ->
        load_audio_transcriber C s' =
        (Ok tt, record (st_error ("Failed to load Audio Transcriber: " ++ e'))
                  (record (call_AudioTranscriber (Raise e')) s')))
  /\ (image_description_generator (self s) = None ->
      new_QwenVLDescriptionGenerator C s = Raise e ->
      let s' := record (st_error ("Failed to load Image Description Generator: " ++ e))
                  (record (call_QwenVLDescriptionGenerator (Raise e)) s) in
      load_image_description_generator C s = (Ok tt, s')
      /\ image_description_generator (self s') = None
      /\ forall e', new_QwenVLDescriptionGenerator C s' = Raise e' ->
           load_image_description_generator C s' =
           (Ok tt,
            record (st_error ("Failed to load Image Description Generator: " ++ e'))
              (record (call_QwenVLDescriptionGenerator (Raise e')) s')))
  /\ (Py.truthy (google_api_key (st s)) = true ->
      new_PDFChatbot C (on_pdf_change pdf_path s) pdf_path (google_api_key (st s))
      = Raise e ->
      let s' := record (st_error ("Failed to load PDF Chatbot: " ++ e))
                  (record (call_PDFChatbot pdf_path (google_api_key (st s)) (Raise e))
                     (on_pdf_change pdf_path s)) in
      load_pdf_chatbot C pdf_path s = (Ok None, s')
      /\ pdf_chatbot (self s') = pdf_chatbot (self s)
      /\ render_pdf_chat_interface C w pdf_path s = (Ok tt, set_pdf_chatbot None s')
      /\ pdf_chatbot (self (set_pdf_chatbot None s')) = None
      /\ forall e',
           new_PDFChatbot C (set_pdf_chatbot None s') pdf_path (google_api_key (st s))
           = Raise e' ->
           render_pdf_chat_interface C w pdf_path (set_pdf_chatbot None s') =
           (Ok tt,
            set_pdf_chatbot None
              (record (st_error ("Failed to load PDF Chatbot: " ++ e'))
                 (record (call_PDFChatbot pdf_path (google_api_key (st s)) (Raise e'))
                    (set_pdf_chatbot None s')))))
  /\ catches (load_audio_transcriber C)
  /\ catches (load_image_description_generator C)
  /\ catches (load_pdf_chatbot C pdf_path)
  /\ (audio_transcriber (self s) = None ->
      new_AudioTranscriber C s = Exit e ->
      load_audio_transcriber C s = (Exit e, record (call_AudioTranscriber (Exit e)) s))
  /\ (image_description_generator (self s) = None ->
      new_QwenVLDescriptionGenerator C s = Exit e ->
      load_image_description_generator C s =
      (Exit e, record (call_QwenVLDescriptionGenerator (Exit e)) s))
  /\ (Py.truthy (google_api_key (st s)) = true ->
      new_PDFChatbot C (on_pdf_change pdf_path s) pdf_path (google_api_key (st s))
      = Exit e ->
      load_pdf_chatbot C pdf_path s =
      (Exit e,
       record (call_PDFChatbot pdf_path (google_api_key (st s)) (Exit e))
         (on_pdf_change pdf_path s))
      /\ render_pdf_chat_interface C w pdf_path s =
         (Exit e,
          record (call_PDFChatbot pdf_path (google_api_key (st s)) (Exit e))
            (on_pdf_change pdf_path s))).
Proof.
  split; [|split; [|split]].
  - intros Hnone Hnew s'.
    assert (H1 : load_audio_transcriber C s = (Ok tt, s')).
    { rewrite (load_audio_transcriber_unset C s Hnone). cbv zeta. now rewrite Hnew. }
    split; [exact H1|]. split; [exact Hnone|].
    intros e' Hnew'.
    rewrite (load_audio_transcriber_unset C s' Hnone). cbv zeta. now rewrite Hnew'.
  - intros Hnone Hnew s'.
    assert (H1 : load_image_description_generator C s = (Ok tt, s')).
    { rewrite (load_image_description_generator_unset C s Hnone). cbv zeta.
      now rewrite Hnew. }
    split; [exact H1|]. split; [exact Hnone|].
    intros e' Hnew'.
    rewrite (load_image_description_generator_unset C s' Hnone). cbv zeta.
    now rewrite Hnew'.
  - intros Hk Hnew s'.
    assert (H1 : load_pdf_chatbot C pdf_path s = (Ok None, s')).
    { rewrite (load_pdf_chatbot_key C pdf_path s Hk). cbv zeta. rewrite Hnew.
      unfold pdf_chatbot_built. now rewrite on_pdf_change_google_api_key. }
    split; [exact H1|].
    split; [subst s'; simpl; now rewrite on_pdf_change_self|].
    split; [rewrite render_pdf_chat_interface_eq, H1; reflexivity|].
    split; [reflexivity|].
    intros e' Hnew'.
    set (s2 := set_pdf_chatbot None s') in *.
    assert (Hk2 : google_api_key (st s2) = google_api_key (st s)).
    { subst s2 s'. simpl. apply on_pdf_change_google_api_key. }
    assert (Hsame : on_pdf_change pdf_path s2 = s2).
    { unfold on_pdf_change.
      assert (Hp : current_pdf_path (st s2) = Some pdf_path).
      { subst s2 s'. simpl. apply on_pdf_change_current_pdf_path. }
      rewrite Hp. simpl. now rewrite String.eqb_refl. }
    rewrite render_pdf_chat_interface_eq.
    rewrite (load_pdf_chatbot_key C pdf_path s2) by (now rewrite Hk2).
    cbv zeta. rewrite Hsame, Hk2, Hnew'. unfold pdf_chatbot_built.
    now rewrite Hk2.
  - split; [apply load_audio_transcriber_catches|].
    split; [apply load_image_description_generator_catches|].
    split; [apply load_pdf_chatbot_catches|].
    split; [|split].
    + intros Hnone Hnew.
      rewrite (load_audio_transcriber_unset C s Hnone). cbv zeta. now rewrite Hnew.
    + intros Hnone Hnew.
      rewrite (load_image_description_generator_unset C s Hnone). cbv zeta.
      now rewrite Hnew.
    + intros Hk Hnew.
      assert (H1 : load_pdf_chatbot C pdf_path s =
                   (Exit e,
                    record (call_PDFChatbot pdf_path (google_api_key (st s)) (Exit e))
                      (on_pdf_change pdf_path s))).
      { rewrite (load_pdf_chatbot_key C pdf_path s Hk). cbv zeta. rewrite Hnew.
        unfold pdf_chatbot_built. now rewrite on_pdf_change_google_api_key. }
      split; [exact H1|]. now rewrite render_pdf_chat_interface_eq, H1.
Qed.

Lemma construction_failure_is_caught_witness :
  load_audio_transcriber broken fresh =
  (Ok tt, record (st_error "Failed to load Audio Transcriber: no model")
            (record (call_AudioTranscriber (Raise "no model")) fresh))
  /\ load_image_description_generator broken fresh =
     (Ok tt, record (st_error "Failed to load Image Description Generator: no GPU")
               (record (call_QwenVLDescriptionGenerator (Raise "no GPU")) fresh))
  /\ pdf_chatbot
       (self (final (render_pdf_chat_interface broken (upload "a.pdf" AutoDetect None)
                       "temp/a.pdf" chatting))) = None
  /\ load_audio_transcriber interrupted fresh =
     (Exit "KeyboardInterrupt",
      record (call_AudioTranscriber (Exit "KeyboardInterrupt")) fresh).
Proof.
  split; [|split; [|split]].
  - exact (proj1 (proj1
      (construction_failure_is_caught broken (upload "a.pdf" AutoDetect None)
         "temp/a.pdf" fresh "no model") eq_refl eq_refl)).
  - exact (proj1 (proj1 (proj2
      (construction_failure_is_caught broken (upload "a.pdf" AutoDetect None)
         "temp/a.pdf" fresh "no GPU")) eq_refl eq_refl)).
  - destruct (proj1 (proj2 (proj2
      (construction_failure_is_caught broken (upload "a.pdf" AutoDetect None)
         "temp/a.pdf" chatting "bad key"))) eq_refl eq_refl) as (_ & _ & H & _).
    now rewrite H.
  - destruct (construction_failure_is_caught interrupted (upload "a.pdf" AutoDetect None)
                "temp/a.pdf" fresh "KeyboardInterrupt")
      as (_ & _ & _ & _ & _ & _ & H & _).
    exact (H eq_refl eq_refl).
Defined.

(** Against C7 as it is stated, for any exception: a constructor that is
    interrupted leaves its loader with the exception; nothing is caught, no
    error is shown, and the loader does not return. *)
Lemma interrupted_construction_is_not_caught :
  load_audio_transcriber interrupted fresh =
  (Exit "KeyboardInterrupt",
   record (call_AudioTranscriber (Exit "KeyboardInterrupt")) fresh)
  /\ load_image_description_generator interrupted fresh =
     (Exit "KeyboardInterrupt",
      record (call_QwenVLDescriptionGenerator (Exit "KeyboardInterrupt")) fresh)
  /\ load_pdf_chatbot interrupted "temp/a.pdf" keyed =
     (Exit "SystemExit",
      record (call_PDFChatbot "temp/a.pdf" (Some "secret") (Exit "SystemExit"))
        (on_pdf_change "temp/a.pdf" keyed))
  /\ ~ returns (load_audio_transcriber interrupted)
  /\ ~ (forall C s, exists a, outcome (load_pdf_chatbot C "temp/a.pdf" s) = Ok a).
Proof.
  split; [reflexivity|]. split; [reflexivity|]. split; [reflexivity|]. split.
  - intros H. destruct (H fresh) as [a Ha]. discriminate.
  - intros H. destruct (H interrupted keyed) as [a Ha]. discriminate.
Qed.

(** ** The transcription and image-description flows *)

Lemma transcription_flow C file_path s :
  let flow :=
    (load_audio_transcriber C ;;
     a <- gets (fun s => audio_transcriber (self s)) ;;
     match a with
     | Some h =>
         transcription <- transcribe_ C h file_path ;;
         emit (st_subheader "Transcription") ;;
         emit (st_write transcription)
     | None => ret tt
     end) in
  st (final (flow s)) = st s
  /\ flow s =
     match audio_transcriber (self s) with
     | Some h =>
         let text := transcribe C s h file_path in
         (Ok tt,
          record (st_write text)
            (record (st_subheader "Transcription")
               (record (call_transcribe h file_path text) s)))
     | None =>
         let r := new_AudioTranscriber C s in
         let s1 := record (call_AudioTranscriber r) s in
         match r with
         | Ok h =>
             let s2 := record (st_success "Audio Transcriber initialized successfully!")
                         (set_audio_transcriber (Some h) s1) in
             let text := transcribe C s2 h file_path in
             (Ok tt,
              record (st_write text)
                (record (st_subheader "Transcription")
                   (record (call_transcribe h file_path text) s2)))
         | Raise e =>
             (Ok tt, record (st_error ("Failed to load Audio Transcriber: " ++ e)) s1)
         | Exit e => (Exit e, s1)
         end
     end.
Proof.
  intros flow.
  assert (He : flow s =
     match audio_transcriber (self s) with
     | Some h =>
         let text := transcribe C s h file_path in
         (Ok tt,
          record (st_write text)
            (record (st_subheader "Transcription")
               (record (call_transcribe h file_path text) s)))
     | None =>
         let r := new_AudioTranscriber C s in
         let s1 := record (call_AudioTranscriber r) s in
         match r with
         | Ok h =>
             let s2 := record (st_success "Audio Transcriber initialized successfully!")
                         (set_audio_transcriber (Some h) s1) in
             let text := transcribe C s2 h file_path in
             (Ok tt,
              record (st_write text)
                (record (st_subheader "Transcription")
                   (record (call_transcribe h file_path text) s2)))
         | Raise e =>
             (Ok tt, record (st_error ("Failed to load Audio Transcriber: " ++ e)) s1)
         | Exit e => (Exit e, s1)
         end
     end).
  { subst flow. unfold bind.
    destruct (audio_transcriber (self s)) as [h|] eqn:Ha.
    - rewrite (load_audio_transcriber_set C s h Ha).
      unfold gets, transcribe_, emit, modify. now rewrite Ha.
    - rewrite (load_audio_transcriber_unset C s Ha). cbv zeta.
      destruct (new_AudioTranscriber C s) as [h|e|e];
        unfold gets, transcribe_, emit, modify; simpl; rewrite ?Ha; reflexivity. }
  split; [|exact He].
  rewrite He. destruct (audio_transcriber (self s)) as [h|]; [reflexivity|].
  cbv zeta. destruct (new_AudioTranscriber C s); reflexivity.
Qed.

Lemma description_flow C file_path s :
  let flow :=
    (load_image_description_generator C ;;
     g <- gets (fun s => image_description_generator (self s)) ;;
     match g with
     | Some h =>
         description <- generate_description_ C h file_path ;;
         emit (st_subheader "Image Description") ;;
         emit (st_write description)
     | None => ret tt
     end) in
  st (final (flow s)) = st s
  /\ flow s =
     match image_description_generator (self s) with
     | Some h =>
         let text := generate_description C s h file_path in
         (Ok tt,
          record (st_write text)
            (record (st_subheader "Image Description")
               (record (call_generate_description h file_path text) s)))
     | None =>
         let r := new_QwenVLDescriptionGenerator C s in
         let s1 := record (call_QwenVLDescriptionGenerator r) s in
         match r with
         | Ok h =>
             let s2 :=
               record (st_success "Image Description Generator initialized successfully!")
                 (set_image_description_generator (Some h) s1) in
             let text := generate_description C s2 h file_path in
             (Ok tt,
              record (st_write text)
                (record (st_subheader "Image Description")
                   (record (call_generate_description h file_path text) s2)))
         | Raise e =>
             (Ok tt,
              record (st_error ("Failed to load Image Description Generator: " ++ e)) s1)
         | Exit e => (Exit e, s1)
         end
     end.
Proof.
  intros flow.
  assert (He : flow s =
     match image_description_generator (self s) with
     | Some h =>
         let text := generate_description C s h file_path in
         (Ok tt,
          record (st_write text)
            (record (st_subheader "Image Description")
               (record (call_generate_description h file_path text) s)))
     | None =>
         let r := new_QwenVLDescriptionGenerator C s in
         let s1 := record (call_QwenVLDescriptionGenerator r) s in
         match r with
         | Ok h =>
             let s2 :=
               record (st_success "Image Description Generator initialized successfully!")
                 (set_image_description_generator (Some h) s1) in
             let text := generate_description C s2 h file_path in
             (Ok tt,
              record (st_write text)
                (record (st_subheader "Image Description")
                   (record (call_generate_description h file_path text) s2)))
         | Raise e =>
             (Ok tt,
              record (st_error ("Failed to load Image Description Generator: " ++ e)) s1)
         | Exit e => (Exit e, s1)
         end
     end).
  { subst flow. unfold bind.
    destruct (image_description_generator (self s)) as [h|] eqn:Ha.
    - rewrite (load_image_description_generator_set C s h Ha).
      unfold gets, generate_description_, emit, modify. now rewrite Ha.
    - rewrite (load_image_description_generator_unset C s Ha). cbv zeta.
      destruct (new_QwenVLDescriptionGenerator C s) as [h|e|e];
        unfold gets, generate_description_, emit, modify; simpl; rewrite ?Ha;
        reflexivity. }
  split; [|exact He].
  rewrite He. destruct (image_description_generator (self s)) as [h|]; [reflexivity|].
  cbv zeta. destruct (new_QwenVLDescriptionGenerator C s); reflexivity.
Qed.

(** C5: an upload that is routed to the transcription flow, or to the
    image-description flow, leaves the session state as it is, the
    transcript and the stored document path in particular, and the result
    is displayed directly.  When the handle is set, or is not and its
    constructor gives an object, [main_ui] calls the collaborator with that
    object and the scratch path of the upload and writes the text it gives
    under the subheader of the flow, the last thing shown; the object that
    was constructed is kept in the handle.  When the constructor raises, the
    error of the loader is the last thing shown and the collaborator is not
    called; when it is interrupted, [main_ui] ends with that exception
    after the failed call. *)
Theorem transcription_and_description_keep_transcript C w f s :
  file_uploader w = Some f ->
  let file_path := Py.path_join "temp" (name f) in
  let s0 := uploaded_only f s in
  let s' := final (main_ui C w s) in
  (routed (selectbox w) (file_extension_of (name f)) = Some Transcription ->
   pdf_chat_messages (st s') = pdf_chat_messages (st s)
   /\ current_pdf_path (st s') = current_pdf_path (st s)
   /\ st s' = st s
   /\ main_ui C w s =
      match audio_transcriber (self s0) with
      | Some h =>
          let text := transcribe C s0 h file_path in
          (Ok tt,
           record (st_write text)
             (record (st_subheader "Transcription")
                (record (call_transcribe h file_path text) s0)))
      | None =>
          let r := new_AudioTranscriber C s0 in
          let s1 := record (call_AudioTranscriber r) s0 in
          match r with
          | Ok h =>
              let s2 := record (st_success "Audio Transcriber initialized successfully!")
                          (set_audio_transcriber (Some h) s1) in
              let text := transcribe C s2 h file_path in
              (Ok tt,
               record (st_write text)
                 (record (st_subheader "Transcription")
                    (record (call_transcribe h file_path text) s2)))
          | Raise e =>
              (Ok tt, record (st_error ("Failed to load Audio Transcriber: " ++ e)) s1)
          | Exit e => (Exit e, s1)
          end
      end)
  /\ (routed (selectbox w) (file_extension_of (name f)) = Some ImageDescription ->
      pdf_chat_messages (st s') = pdf_chat_messages (st s)
      /\ current_pdf_path (st s') = current_pdf_path (st s)
      /\ st s' = st s
      /\ main_ui C w s =
         match image_description_generator (self s0) with
         | Some h =>
             let text := generate_description C s0 h file_path in
             (Ok tt,
              record (st_write text)
                (record (st_subheader "Image Description")
                   (record (call_generate_description h file_path text) s0)))
         | None =>
             let r := new_QwenVLDescriptionGenerator C s0 in
             let s1 := record (call_QwenVLDescriptionGenerator r) s0 in
             match r with
             | Ok h =>
                 let s2 :=
                   record
                     (st_success "Image Description Generator initialized successfully!")
                     (set_image_description_generator (Some h) s1) in
                 let text := generate_description C s2 h file_path in
                 (Ok tt,
                  record (st_write text)
                    (record (st_subheader "Image Description")
                       (record (call_generate_description h file_path text) s2)))
             | Raise e =>
                 (Ok tt,
                  record (st_error ("Failed to load Image Description Generator: " ++ e))
                    s1)
             | Exit e => (Exit e, s1)
             end
         end).
Proof.
  intros Hf file_path s0 s'. subst s'.
  rewrite (main_ui_routed C w f s Hf). cbv zeta. fold file_path. fold s0.
  split; intros Hr; rewrite Hr.
  - destruct (transcription_flow C file_path s0) as [Hst He].
    cbv zeta in Hst, He.
    assert (Hs : st (final
                      ((load_audio_transcriber C ;;
                        a <- gets (fun s => audio_transcriber (self s)) ;;
                        match a with
                        | Some h =>
                            transcription <- transcribe_ C h file_path ;;
                            emit (st_subheader "Transcription") ;;
                            emit (st_write transcription)
                        | None => ret tt
                        end) s0)) = st s)
      by (rewrite Hst; reflexivity).
    split; [now rewrite Hs|]. split; [now rewrite Hs|]. split; [exact Hs|exact He].
  - destruct (description_flow C file_path s0) as [Hst He].
    cbv zeta in Hst, He.
    assert (Hs : st (final
                      ((load_image_description_generator C ;;
                        g <- gets (fun s => image_description_generator (self s)) ;;
                        match g with
                        | Some h =>
                            description <- generate_description_ C h file_path ;;
                            emit (st_subheader "Image Description") ;;
                            emit (st_write description)
                        | None => ret tt
                        end) s0)) = st s)
      by (rewrite Hst; reflexivity).
    split; [now rewrite Hs|]. split; [now rewrite Hs|]. split; [exact Hs|exact He].
Qed.

Lemma transcription_and_description_keep_transcript_witness :
  main_ui working (upload "clip.mp4" AutoDetect None) chatting =
  (Ok tt,
   record (st_write "good morning")
     (record (st_subheader "Transcription")
        (record (call_transcribe (AudioTranscriber_at 3) "temp/clip.mp4" "good morning")
           (record (st_success "Audio Transcriber initialized successfully!")
              (set_audio_transcriber (Some (AudioTranscriber_at 3))
                 (record (call_AudioTranscriber (Ok (AudioTranscriber_at 3)))
                    (uploaded_only {| name := "clip.mp4"; getvalue := [] |}
                       chatting)))))))
  /\ st (final (main_ui working (upload "cat.PNG" ImageDescription None) chatting))
     = st chatting.
Proof.
  split.
  - destruct (proj1
      (transcription_and_description_keep_transcript working
         (upload "clip.mp4" AutoDetect None) {| name := "clip.mp4"; getvalue := [] |}
         chatting eq_refl) eq_refl) as (_ & _ & _ & H).
    exact H.
  - destruct (proj2
      (transcription_and_description_keep_transcript working
         (upload "cat.PNG" ImageDescription None) {| name := "cat.PNG"; getvalue := [] |}
         chatting eq_refl) eq_refl) as (_ & _ & H & _).
    exact H.
Defined.

(** ** Change of document *)

(** The transcript of a state is what is left when it has been emptied and
    at most one turn has followed. *)
Lemma render_pdf_chat_interface_path_change C w pdf_path s :
  let s' := final (render_pdf_chat_interface C w pdf_path s) in
  current_pdf_path (st s') <> current_pdf_path (st s) ->
  current_pdf_path (st s') = Some pdf_path
  /\ (pdf_chat_messages (st s') = []
      \/ exists prompt answer,
           pdf_chat_messages (st s') =
           [ {| role := user; content := prompt |};
             {| role := assistant; content := answer |} ]).
Proof.
  intros s'. subst s'. rewrite render_pdf_chat_interface_eq.
  destruct (Py.truthy (google_api_key (st s))) eqn:Hk.
  - rewrite (load_pdf_chatbot_key C pdf_path s Hk). cbv zeta.
    set (s1 := on_pdf_change pdf_path s).
    assert (Hs1 : current_pdf_path (st s1) <> current_pdf_path (st s) ->
                  current_pdf_path (st s1) = Some pdf_path
                  /\ pdf_chat_messages (st s1) = []).
    { subst s1. intros Hc. split; [apply on_pdf_change_current_pdf_path|].
      rewrite on_pdf_change_pdf_chat_messages.
      destruct (Py.differs (current_pdf_path (st s)) pdf_path) eqn:Hd; [reflexivity|].
      exfalso. apply Hc. unfold on_pdf_change. now rewrite Hd. }
    unfold pdf_chatbot_built.
    destruct (new_PDFChatbot C s1 pdf_path (google_api_key (st s))) as [h|e|e].
    + match goal with |- context [for_each ?l shown ?x] =>
        destruct (replay_session_state l x) as [Hst _];
        set (s2 := final (for_each l shown x)) in *
      end.
      simpl in Hst.
      destruct (chat_input w) as [prompt|];
        [destruct (Py.truthy_str prompt)|]; rewrite !final_pair.
      * destruct (asked_pdf_chat_messages C h prompt s2) as (answer & rest & Ha & _).
        assert (Hp : current_pdf_path (st (asked C h prompt s2))
                     = current_pdf_path (st s1)) by (unfold asked; simpl; now rewrite Hst).
        rewrite Hp, Ha, Hst. intros Hc. destruct (Hs1 Hc) as [H1 H2].
        split; [exact H1|]. right. exists prompt, answer. now rewrite H2.
      * rewrite Hst. intros Hc. destruct (Hs1 Hc). auto.
      * rewrite Hst. intros Hc. destruct (Hs1 Hc). auto.
    + rewrite !final_pair. simpl. intros Hc. destruct (Hs1 Hc). auto.
    + rewrite !final_pair. simpl. intros Hc. destruct (Hs1 Hc). auto.
  - rewrite (load_pdf_chatbot_no_key C pdf_path s Hk). rewrite !final_pair. simpl.
    intros Hc. now elim Hc.
Qed.

Lemma main_ui_path_change C w s :
  let s' := final (main_ui C w s) in
  current_pdf_path (st s') <> current_pdf_path (st s) ->
  pdf_chat_messages (st s') = []
  \/ exists prompt answer,
       pdf_chat_messages (st s') =
       [ {| role := user; content := prompt |};
         {| role := assistant; content := answer |} ].
Proof.
  intros s'. subst s'.
  destruct (file_uploader w) as [f|] eqn:Hf.
  - rewrite (main_ui_routed C w f s Hf). cbv zeta.
    destruct (routed (selectbox w) (file_extension_of (name f))) as [[| | |]|].
    + intros Hc. now elim Hc.
    + intros Hc.
      exact (proj2 (render_pdf_chat_interface_path_change C w _ (uploaded_only f s) Hc)).
    + destruct (transcription_flow C (Py.path_join "temp" (name f)) (uploaded_only f s))
        as [Hst _].
      cbv zeta in Hst. rewrite Hst. intros Hc. now elim Hc.
    + destruct (description_flow C (Py.path_join "temp" (name f)) (uploaded_only f s))
        as [Hst _].
      cbv zeta in Hst. rewrite Hst. intros Hc. now elim Hc.
    + intros Hc. now elim Hc.
  - rewrite (main_ui_no_upload C w s Hf). intros Hc. now elim Hc.
Qed.

Lemma perform_path_change C c s :
  current_pdf_path (st (perform C c s)) <> current_pdf_path (st s) ->
  pdf_chat_messages (st (perform C c s)) = []
  \/ exists prompt answer,
       pdf_chat_messages (st (perform C c s)) =
       [ {| role := user; content := prompt |};
         {| role := assistant; content := answer |} ].
Proof.
  destruct c; simpl.
  - intros Hc. elim Hc.
    now rewrite (load_audio_transcriber_session_state C s).
  - intros Hc.
    destruct (Py.truthy (google_api_key (st s))) eqn:Hk.
    + revert Hc. rewrite (load_pdf_chatbot_key C pdf_path s Hk). cbv zeta.
      assert (Hm : current_pdf_path (st (on_pdf_change pdf_path s))
                   <> current_pdf_path (st s) ->
                   pdf_chat_messages (st (on_pdf_change pdf_path s)) = []).
      { intros Hc. rewrite on_pdf_change_pdf_chat_messages.
        destruct (Py.differs (current_pdf_path (st s)) pdf_path) eqn:Hd; [reflexivity|].
        exfalso. apply Hc. unfold on_pdf_change. now rewrite Hd. }
      unfold pdf_chatbot_built.
      destruct (new_PDFChatbot C _ pdf_path (google_api_key (st s)));
        unfold final; simpl; auto.
    + revert Hc. rewrite (load_pdf_chatbot_no_key C pdf_path s Hk).
      unfold final; simpl. intros Hc. now elim Hc.
  - intros Hc. elim Hc.
    now rewrite (load_image_description_generator_session_state C s).
  - intros Hc. elim Hc. apply render_sidebar_current_pdf_path.
  - intros Hc.
    exact (proj2 (render_pdf_chat_interface_path_change C w file_path s Hc)).
  - apply main_ui_path_change.
  - unfold run. rewrite final_bind.
    destruct (render_sidebar_returns w s) as [[] Hr]. rewrite Hr.
    pose proof (render_sidebar_current_pdf_path w s) as Hp.
    unfold same_current_pdf_path in Hp. rewrite <- Hp.
    apply main_ui_path_change.
Qed.

(** C2: the stored document path changes in [load_pdf_chatbot] only, and
    when it changes the transcript is emptied first: the constructor of the
    chatbot is called in a state whose transcript is empty and whose path is
    the new one, and the transcript is still empty when the loader returns.
    So after any method that has changed the path the transcript is empty,
    or holds the one turn that followed.  A turn, that is a question put to
    a chatbot that was built, adds the question as a user entry and the
    answer as an assistant entry to the transcript that the loader has
    left: two entries, in that order. *)
Theorem document_change_clears_transcript C w pdf_path s :
  let s1 := on_pdf_change pdf_path s in
  let loaded := load_pdf_chatbot C pdf_path s in
  (current_pdf_path (st (final loaded)) <> current_pdf_path (st s) ->
     pdf_chat_messages (st s1) = []
     /\ current_pdf_path (st s1) = Some pdf_path
     /\ loaded = pdf_chatbot_built pdf_path
                   (new_PDFChatbot C s1 pdf_path (google_api_key (st s))) s1
     /\ pdf_chat_messages (st (final loaded)) = [])
  /\ (forall c,
        current_pdf_path (st (perform C c s)) <> current_pdf_path (st s) ->
        pdf_chat_messages (st (perform C c s)) = []
        \/ exists prompt answer,
             pdf_chat_messages (st (perform C c s)) =
             [ {| role := user; content := prompt |};
               {| role := assistant; content := answer |} ])
  /\ (forall h prompt,
        Py.truthy (google_api_key (st s)) = true ->
        new_PDFChatbot C s1 pdf_path (google_api_key (st s)) = Ok h ->
        chat_input w = Some prompt ->
        Py.truthy_str prompt = true ->
        let s' := final (render_pdf_chat_interface C w pdf_path s) in
        exists answer rest,
          pdf_chat_messages (st s') =
          ((if Py.differs (current_pdf_path (st s)) pdf_path then []
            else pdf_chat_messages (st s))
           ++ [ {| role := user; content := prompt |};
                {| role := assistant; content := answer |} ])%list
          /\ trace s' =
             st_markdown answer
               :: call_chat h prompt (session_id (st s)) answer :: rest).
Proof.
  intros s1 loaded. split; [|split; [intros c; apply perform_path_change|]].
  - intros Hchange.
    destruct (Py.truthy (google_api_key (st s))) eqn:Hk.
    + assert (Hd : Py.differs (current_pdf_path (st s)) pdf_path = true).
      { destruct (Py.differs (current_pdf_path (st s)) pdf_path) eqn:Hd; [reflexivity|].
        exfalso. apply Hchange. subst loaded.
        rewrite (load_pdf_chatbot_key C pdf_path s Hk). cbv zeta.
        unfold on_pdf_change. rewrite Hd.
        unfold pdf_chatbot_built.
        destruct (new_PDFChatbot C s pdf_path (google_api_key (st s))); reflexivity. }
      assert (Hl : loaded = pdf_chatbot_built pdf_path
                     (new_PDFChatbot C s1 pdf_path (google_api_key (st s))) s1)
        by exact (load_pdf_chatbot_key C pdf_path s Hk).
      assert (Hm : pdf_chat_messages (st s1) = []).
      { subst s1. now rewrite on_pdf_change_pdf_chat_messages, Hd. }
      split; [exact Hm|].
      split; [apply on_pdf_change_current_pdf_path|].
      split; [exact Hl|].
      rewrite Hl. unfold pdf_chatbot_built.
      destruct (new_PDFChatbot C s1 pdf_path (google_api_key (st s))); exact Hm.
    + exfalso. apply Hchange. subst loaded.
      now rewrite (load_pdf_chatbot_no_key C pdf_path s Hk).
  - intros h prompt Hk Hnew Hin Hp s'. subst s'.
    rewrite render_pdf_chat_interface_eq, (load_pdf_chatbot_key C pdf_path s Hk).
    cbv zeta. fold s1. rewrite Hnew. unfold pdf_chatbot_built. rewrite Hin, Hp.
    match goal with |- context [asked C h prompt ?x] => set (s2 := x) end.
    rewrite !final_pair.
    destruct (asked_pdf_chat_messages C h prompt s2) as (answer & rest & Ha & Ht & _).
    assert (Hst : st s2 = st s1).
    { subst s2.
      match goal with |- context [for_each ?l shown ?x] =>
        destruct (replay_session_state l x) as [H1 _] end.
      rewrite H1. reflexivity. }
    exists answer, rest. rewrite Ha, Ht, Hst.
    subst s1. rewrite on_pdf_change_pdf_chat_messages, on_pdf_change_session_id.
    split; reflexivity.
Qed.

Lemma document_change_clears_transcript_witness :
  pdf_chat_messages (st (final (load_pdf_chatbot working "temp/new.pdf" chatting))) = []
  /\ exists answer rest,
       pdf_chat_messages
         (st (final (render_pdf_chat_interface working
                       (upload "new.pdf" AutoDetect (Some "Why?"))
                       "temp/new.pdf" chatting))) =
       [ {| role := user; content := "Why?" |};
         {| role := assistant; content := answer |} ]
       /\ trace (final (render_pdf_chat_interface working
                          (upload "new.pdf" AutoDetect (Some "Why?"))
                          "temp/new.pdf" chatting)) =
          st_markdown answer
            :: call_chat (PDFChatbot_at 0) "Why?" "session-1" answer :: rest.
Proof.
  destruct (document_change_clears_transcript working
              (upload "new.pdf" AutoDetect (Some "Why?")) "temp/new.pdf" chatting)
    as (H1 & _ & H2).
  split.
  - assert (Hne : current_pdf_path
                    (st (final (load_pdf_chatbot working "temp/new.pdf" chatting)))
                  <> current_pdf_path (st chatting)) by (vm_compute; discriminate).
    destruct (H1 Hne) as (_ & _ & _ & H). exact H.
  - exact (H2 (PDFChatbot_at 0) "Why?" eq_refl eq_refl eq_refl eq_refl).
Defined.

(** ** The handles of the transcriber and of the image describer *)

Section BuiltOnce.

Context {H : Type} (handle : State -> option H) (is_call is_built : Event -> bool).

Lemma built_once_refl s : built_once handle is_call is_built s s.
Proof. unfold built_once. destruct (handle s); auto. Qed.

Lemma built_once_trans s1 s2 s3 :
  built_once handle is_call is_built s1 s2 ->
  built_once handle is_call is_built s2 s3 ->
  built_once handle is_call is_built s1 s3.
Proof.
  unfold built_once. destruct (handle s1) as [h|].
  - intros (E2 & Hc & Hb). rewrite E2. intros (E3 & Hc' & Hb').
    repeat split; congruence.
  - intros [(E2 & Hb) | (h & E2 & Hb)]; rewrite E2.
    + intros [(E3 & Hb') | (h & E3 & Hb')].
      * left. split; congruence.
      * right. exists h. split; congruence.
    + intros (E3 & _ & Hb'). right. exists h. split; congruence.
Qed.

(** What follows from it on the number of constructions. *)
Lemma built_once_at_most_once s s' :
  built_once handle is_call is_built s s' ->
  count is_built (trace s') <=
  count is_built (trace s) + match handle s with None => 1 | Some _ => 0 end.
Proof.
  unfold built_once. destruct (handle s).
  - intros (_ & _ & Hb). lia.
  - intros [(_ & Hb) | (h & _ & Hb)]; lia.
Qed.

Lemma built_once_reused s s' h :
  built_once handle is_call is_built s s' ->
  handle s = Some h ->
  handle s' = Some h /\ count is_call (trace s') = count is_call (trace s).
Proof.
  unfold built_once. intros Ho Hs. rewrite Hs in Ho. tauto.
Qed.

End BuiltOnce.

Ltac leaf_once :=
  unfold audio_once, image_once, built_once, count; simpl;
  match goal with
  | |- context [match ?h with _ => _ end] => destruct h
  end; auto.

Ltac audio_built_once :=
  prove_respects
    (built_once_refl (fun s => audio_transcriber (self s))
       is_call_AudioTranscriber is_built_AudioTranscriber)
    (built_once_trans (fun s => audio_transcriber (self s))
       is_call_AudioTranscriber is_built_AudioTranscriber)
    leaf_once.

Ltac image_built_once :=
  prove_respects
    (built_once_refl (fun s => image_description_generator (self s))
       is_call_QwenVLDescriptionGenerator is_built_QwenVLDescriptionGenerator)
    (built_once_trans (fun s => image_description_generator (self s))
       is_call_QwenVLDescriptionGenerator is_built_QwenVLDescriptionGenerator)
    leaf_once.

Lemma load_audio_transcriber_audio_once C :
  respects audio_once (load_audio_transcriber C).
Proof.
  intros s. unfold audio_once, built_once.
  destruct (audio_transcriber (self s)) as [h|] eqn:Ha.
  - rewrite (load_audio_transcriber_set C s h Ha). simpl. auto.
  - rewrite (load_audio_transcriber_unset C s Ha). cbv zeta.
    destruct (new_AudioTranscriber C s) as [h|e|e]; unfold count; simpl.
    + right. exists h. auto.
    + left. auto.
    + left. auto.
Qed.

Lemma load_image_description_generator_image_once C :
  respects image_once (load_image_description_generator C).
Proof.
  intros s. unfold image_once, built_once.
  destruct (image_description_generator (self s)) as [h|] eqn:Ha.
  - rewrite (load_image_description_generator_set C s h Ha). simpl. auto.
  - rewrite (load_image_description_generator_unset C s Ha). cbv zeta.
    destruct (new_QwenVLDescriptionGenerator C s) as [h|e|e]; unfold count; simpl.
    + right. exists h. auto.
    + left. auto.
    + left. auto.
Qed.

#[global] Hint Resolve load_audio_transcriber_audio_once
  load_image_description_generator_image_once : methods.

Lemma load_pdf_chatbot_audio_once C pdf_path :
  respects audio_once (load_pdf_chatbot C pdf_path).
Proof. unfold load_pdf_chatbot. audio_built_once. Qed.

Lemma load_pdf_chatbot_image_once C pdf_path :
  respects image_once (load_pdf_chatbot C pdf_path).
Proof. unfold load_pdf_chatbot. image_built_once. Qed.

Lemma load_image_description_generator_audio_once C :
  respects audio_once (load_image_description_generator C).
Proof. unfold load_image_description_generator. audio_built_once. Qed.

Lemma load_audio_transcriber_image_once C :
  respects image_once (load_audio_transcriber C).
Proof. unfold load_audio_transcriber. image_built_once. Qed.

Lemma render_sidebar_audio_once w : respects audio_once (render_sidebar w).
Proof. unfold render_sidebar. audio_built_once. Qed.

Lemma render_sidebar_image_once w : respects image_once (render_sidebar w).
Proof. unfold render_sidebar. image_built_once. Qed.

#[global] Hint Resolve load_pdf_chatbot_audio_once load_pdf_chatbot_image_once
  load_image_description_generator_audio_once load_audio_transcriber_image_once
  render_sidebar_audio_once render_sidebar_image_once : methods.

Lemma render_pdf_chat_interface_audio_once C w file_path :
  respects audio_once (render_pdf_chat_interface C w file_path).
Proof. unfold render_pdf_chat_interface. audio_built_once. Qed.

Lemma render_pdf_chat_interface_image_once C w file_path :
  respects image_once (render_pdf_chat_interface C w file_path).
Proof. unfold render_pdf_chat_interface. image_built_once. Qed.

#[global] Hint Resolve render_pdf_chat_interface_audio_once
  render_pdf_chat_interface_image_once : methods.

Lemma main_ui_audio_once C w : respects audio_once (main_ui C w).
Proof. unfold main_ui. audio_built_once. Qed.

Lemma main_ui_image_once C w : respects image_once (main_ui C w).
Proof. unfold main_ui. image_built_once. Qed.

#[global] Hint Resolve main_ui_audio_once main_ui_image_once : methods.

Lemma run_audio_once C w : respects audio_once (run C w).
Proof. unfold run. audio_built_once. Qed.

Lemma run_image_once C w : respects image_once (run C w).
Proof. unfold run. image_built_once. Qed.

Lemma perform_audio_once C c s : audio_once s (perform C c s).
Proof.
  destruct c; simpl.
  - apply load_audio_transcriber_audio_once.
  - apply load_pdf_chatbot_audio_once.
  - apply load_image_description_generator_audio_once.
  - apply render_sidebar_audio_once.
  - apply render_pdf_chat_interface_audio_once.
  - apply main_ui_audio_once.
  - apply run_audio_once.
Qed.

Lemma perform_image_once C c s : image_once s (perform C c s).
Proof.
  destruct c; simpl.
  - apply load_audio_transcriber_image_once.
  - apply load_pdf_chatbot_image_once.
  - apply load_image_description_generator_image_once.
  - apply render_sidebar_image_once.
  - apply render_pdf_chat_interface_image_once.
  - apply main_ui_image_once.
  - apply run_image_once.
Qed.

Lemma perform_all_audio_once C cs s : audio_once s (perform_all C cs s).
Proof.
  revert s. induction cs as [|c cs IH]; intros s; simpl.
  - apply built_once_refl.
  - eapply built_once_trans; [apply perform_audio_once | apply IH].
Qed.

Lemma perform_all_image_once C cs s : image_once s (perform_all C cs s).
Proof.
  revert s. induction cs as [|c cs IH]; intros s; simpl.
  - apply built_once_refl.
  - eapply built_once_trans; [apply perform_image_once | apply IH].
Qed.

(** C8, as the script has it: on one assistant object, whatever methods are
    called on it and in whatever order, the transcriber is constructed at
    most once more if its handle is [None], and not at all if it is set;
    a handle that is set stays the same object and the constructor is not
    called again; [__init__] constructs nothing and starts both handles at
    [None], and the first call of the loader is the one that calls the
    constructor and keeps its object.  The same holds of the image
    describer. *)
Theorem handle_built_once_per_assistant C cs s :
  let s' := perform_all C cs s in
  count is_built_AudioTranscriber (trace s') <=
    count is_built_AudioTranscriber (trace s)
    + match audio_transcriber (self s) with None => 1 | Some _ => 0 end
  /\ count is_built_QwenVLDescriptionGenerator (trace s') <=
       count is_built_QwenVLDescriptionGenerator (trace s)
       + match image_description_generator (self s) with None => 1 | Some _ => 0 end
  /\ (forall h,
        audio_transcriber (self s) = Some h ->
        audio_transcriber (self s') = Some h
        /\ count is_call_AudioTranscriber (trace s') =
           count is_call_AudioTranscriber (trace s))
  /\ (forall h,
        image_description_generator (self s) = Some h ->
        image_description_generator (self s') = Some h
        /\ count is_call_QwenVLDescriptionGenerator (trace s') =
           count is_call_QwenVLDescriptionGenerator (trace s))
  /\ (forall h,
        audio_transcriber (self s) = None ->
        new_AudioTranscriber C s = Ok h ->
        audio_transcriber (self (final (load_audio_transcriber C s))) = Some h)
  /\ (forall h,
        image_description_generator (self s) = None ->
        new_QwenVLDescriptionGenerator C s = Ok h ->
        image_description_generator
          (self (final (load_image_description_generator C s))) = Some h)
  /\ (forall uuid4 store tr,
        audio_transcriber (self (__init__ uuid4 store tr)) = None
        /\ image_description_generator (self (__init__ uuid4 store tr)) = None
        /\ trace (__init__ uuid4 store tr) = tr).
Proof.
  intros s'. subst s'.
  pose proof (perform_all_audio_once C cs s) as Ha.
  pose proof (perform_all_image_once C cs s) as Hi.
  split; [exact (built_once_at_most_once _ _ _ _ _ Ha)|].
  split; [exact (built_once_at_most_once _ _ _ _ _ Hi)|].
  split; [intros h Hs; exact (built_once_reused _ _ _ _ _ h Ha Hs)|].
  split; [intros h Hs; exact (built_once_reused _ _ _ _ _ h Hi Hs)|].
  split.
  { intros h Hnone Hnew. rewrite (load_audio_transcriber_unset C s Hnone).
    cbv zeta. now rewrite Hnew. }
  split.
  { intros h Hnone Hnew. rewrite (load_image_description_generator_unset C s Hnone).
    cbv zeta. now rewrite Hnew. }
  intros uuid4 store tr. repeat split.
Qed.

Lemma handle_built_once_per_assistant_witness :
  audio_transcriber
    (self (perform_all working
             [ do_main_ui (upload "b.wav" AutoDetect None);
               do_load_audio_transcriber;
               do_run (upload "c.mp3" Transcription None) ]
             (final (load_audio_transcriber working fresh))))
  = Some (AudioTranscriber_at 0)
  /\ audio_transcriber (self (final (load_audio_transcriber working fresh)))
     = Some (AudioTranscriber_at 0).
Proof.
  split.
  - destruct (handle_built_once_per_assistant working
                [ do_main_ui (upload "b.wav" AutoDetect None);
                  do_load_audio_transcriber;
                  do_run (upload "c.mp3" Transcription None) ]
                (final (load_audio_transcriber working fresh)))
      as (_ & _ & H & _).
    exact (proj1 (H (AudioTranscriber_at 0) eq_refl)).
  - destruct (handle_built_once_per_assistant working [] fresh)
      as (_ & _ & _ & _ & H & _).
    exact (H (AudioTranscriber_at 0) eq_refl eq_refl).
Defined.

(** Against C8 as it is stated, for a session: two executions of the script
    in one session, each with an audio upload, construct the transcriber
    twice, and the image describer likewise. *)
Lemma session_builds_the_handles_again :
  stored_session_id
    (fst (session working "session-1"
            [upload "clip.mp4" AutoDetect None; upload "clip.mp4" AutoDetect None]
            empty_store []))
  = Some "session-1"
  /\ count is_built_AudioTranscriber
       (snd (session working "session-1"
               [upload "clip.mp4" AutoDetect None; upload "clip.mp4" AutoDetect None]
               empty_store [])) = 2
  /\ count is_built_QwenVLDescriptionGenerator
       (snd (session working "session-1"
               [upload "cat.png" AutoDetect None; upload "cat.png" AutoDetect None]
               empty_store [])) = 2
  /\ ~ (forall C uuid4 ws store tr,
          count is_built_AudioTranscriber (snd (session C uuid4 ws store tr))
          <= S (count is_built_AudioTranscriber tr)).
Proof.
  split; [reflexivity|]. split; [reflexivity|]. split; [reflexivity|].
  intros H.
  specialize (H working "session-1"
                [upload "clip.mp4" AutoDetect None; upload "clip.mp4" AutoDetect None]
                empty_store []).
  vm_compute in H. lia.
Qed.

(** ** The credential *)

Ltac leaf_credential :=
  unfold keeps_credential; simpl;
  try match goal with H : Py.truthy_str _ = true |- _ => rewrite H end; auto.

Lemma render_sidebar_keeps_credential w : respects keeps_credential (render_sidebar w).
Proof.
  unfold render_sidebar.
  prove_respects keeps_credential_refl keeps_credential_trans leaf_credential.
Qed.

Lemma render_sidebar_empty_input w s :
  text_input w = "" ->
  google_api_key (st (final (render_sidebar w s))) = google_api_key (st s).
Proof.
  intros Hi. unfold render_sidebar, bind, emit, modify, gets, clear_history_, ret.
  rewrite Hi. simpl.
  destruct (button w); simpl; [destruct (pdf_chatbot (self s))|]; reflexivity.
Qed.

Lemma run_keeps_credential C w : respects keeps_credential (run C w).
Proof.
  unfold run. apply respects_bind.
  - exact keeps_credential_trans.
  - apply render_sidebar_keeps_credential.
  - intros _. eapply respects_weaken;
      [exact same_google_api_key_keeps_credential | apply main_ui_google_api_key].
Qed.

Lemma perform_google_api_key C c s :
  match c with
  | do_render_sidebar _ | do_run _ => True
  | _ => google_api_key (st (perform C c s)) = google_api_key (st s)
  end.
Proof.
  destruct c; simpl; try exact I.
  - apply load_audio_transcriber_google_api_key.
  - apply load_pdf_chatbot_google_api_key.
  - apply load_image_description_generator_google_api_key.
  - apply render_pdf_chat_interface_google_api_key.
  - apply main_ui_google_api_key.
Qed.

Lemma perform_keeps_credential C c s : keeps_credential s (perform C c s).
Proof.
  pose proof (perform_google_api_key C c s) as H.
  destruct c; simpl in *;
    try (apply same_google_api_key_keeps_credential; exact H).
  - apply render_sidebar_keeps_credential.
  - apply run_keeps_credential.
Qed.

Lemma main_keeps_credential C uuid4 w store tr :
  credential_stored store = true ->
  credential_stored (persisted (final (main C uuid4 w store tr))) = true.
Proof.
  unfold credential_stored, main. intros Hs.
  simpl stored_google_api_key.
  apply run_keeps_credential. simpl.
  destruct (stored_google_api_key store); [exact Hs | discriminate].
Qed.

Lemma session_keeps_credential C uuid4 ws store tr :
  credential_stored store = true ->
  credential_stored (fst (session C uuid4 ws store tr)) = true.
Proof.
  revert store tr. induction ws as [|w ws IH]; intros store tr Hs; simpl.
  - exact Hs.
  - apply IH. now apply main_keeps_credential.
Qed.

(** C10: a credential that is set is never unset.  With an empty input the
    sidebar leaves the stored credential as it is; every method keeps a
    credential that is set, the sidebar being the only one that assigns
    it, and then to the text that was entered; [__init__] takes the
    credential that the store has; and over a whole session, where
    [__init__] runs again at every execution, a credential that is in the
    store stays there and stays non-empty. *)
Theorem credential_is_never_unset C uuid4 ws store tr w c s :
  (text_input w = "" ->
   google_api_key (st (final (render_sidebar w s))) = google_api_key (st s))
  /\ (Py.truthy (google_api_key (st s)) = true ->
      Py.truthy (google_api_key (st (perform C c s))) = true)
  /\ match c with
     | do_render_sidebar _ | do_run _ => True
     | _ => google_api_key (st (perform C c s)) = google_api_key (st s)
     end
  /\ (forall v,
        stored_google_api_key store = Some v ->
        google_api_key (st (__init__ uuid4 store tr)) = v)
  /\ (credential_stored store = true ->
      credential_stored (fst (session C uuid4 ws store tr)) = true).
Proof.
  split; [apply render_sidebar_empty_input|].
  split; [apply perform_keeps_credential|].
  split; [apply perform_google_api_key|].
  split; [intros v Hv; simpl; now rewrite Hv|].
  apply session_keeps_credential.
Qed.

Lemma credential_is_never_unset_witness :
  google_api_key (st (final (render_sidebar (sidebar_only "" true) keyed)))
  = Some "secret"
  /\ Py.truthy
       (google_api_key
          (st (perform working (do_run (upload "a.pdf" AutoDetect (Some "Why?"))) keyed)))
     = true
  /\ credential_stored
       (fst (session working "session-1"
               [sidebar_only "" true; upload "a.pdf" AutoDetect None]
               (persisted keyed) [])) = true.
Proof.
  destruct (credential_is_never_unset working "session-1"
              [sidebar_only "" true; upload "a.pdf" AutoDetect None]
              (persisted keyed) [] (sidebar_only "" true)
              (do_run (upload "a.pdf" AutoDetect (Some "Why?"))) keyed)
    as (H1 & H2 & _ & _ & H4).
  split; [exact (H1 eq_refl)|].
  split; [exact (H2 eq_refl) | exact (H4 eq_refl)].
Defined.

(** * Further properties of the script *)

(** ** More of what the methods leave as it is *)

Ltac unfold_methods :=
  unfold run, main_ui, render_pdf_chat_interface, render_sidebar, load_pdf_chatbot,
    load_audio_transcriber, load_image_description_generator.

Lemma same_session_id_refl s : same_session_id s s.
Proof. reflexivity. Qed.

Lemma same_session_id_trans s1 s2 s3 :
  same_session_id s1 s2 -> same_session_id s2 s3 -> same_session_id s1 s3.
Proof. unfold same_session_id. congruence. Qed.

Lemma run_session_id C w : respects same_session_id (run C w).
Proof.
  unfold_methods.
  prove_respects same_session_id_refl same_session_id_trans leaf_refl.
Qed.

Lemma same_count_refl p s : same_count p s s.
Proof. reflexivity. Qed.

Lemma same_count_trans p s1 s2 s3 :
  same_count p s1 s2 -> same_count p s2 s3 -> same_count p s1 s3.
Proof. unfold same_count. congruence. Qed.

Ltac leaf_count := unfold same_count, count; simpl; reflexivity.

Ltac count_kept p :=
  prove_respects (same_count_refl p) (same_count_trans p) leaf_count.

Lemma extends_refl s : extends s s.
Proof. now exists []. Qed.

Lemma extends_trans s1 s2 s3 : extends s1 s2 -> extends s2 s3 -> extends s1 s3.
Proof.
  intros [l1 H1] [l2 H2]. exists (l2 ++ l1)%list.
  now rewrite H2, H1, app_assoc.
Qed.

Ltac leaf_extends :=
  first [ now (eexists []) | now (eexists [_]) ].

Ltac trace_extended := prove_respects extends_refl extends_trans leaf_extends.

Lemma extends_In e s s' : extends s s' -> In e (trace s) -> In e (trace s').
Proof. intros [l H] Hi. rewrite H. apply in_or_app. now right. Qed.

(** ** The session identifier *)

Lemma main_session_id C uuid4 w store tr :
  stored_session_id (persisted (final (main C uuid4 w store tr))) =
  Some (match stored_session_id store with
        | Some v => v
        | None => uuid4
        end).
Proof.
  unfold main. simpl stored_session_id at 1.
  now rewrite (run_session_id C w (__init__ uuid4 store tr)).
Qed.

Lemma executions_session_id C runs store tr v :
  stored_session_id store = Some v ->
  stored_session_id (fst (executions C runs store tr)) = Some v.
Proof.
  revert store tr. induction runs as [|[uuid4 w] runs IH]; intros store tr Hs; simpl.
  - exact Hs.
  - apply IH. now rewrite main_session_id, Hs.
Qed.

(** X1: the session identifier is drawn once.  After the first execution
    of a session the store has the identifier that was there before, or
    else the one drawn in that execution, and it keeps it through all the
    executions that follow, whatever [uuid.uuid4()] would give in them and
    whatever is uploaded, asked or cleared. *)
Theorem session_id_is_drawn_once C uuid4 w runs store tr :
  stored_session_id (fst (executions C ((uuid4, w) :: runs) store tr)) =
  Some (match stored_session_id store with
        | Some v => v
        | None => uuid4
        end).
Proof.
  simpl executions. apply executions_session_id, main_session_id.
Qed.

(** ** What an execution calls *)

Lemma render_sidebar_self_unset uuid4 store tr w :
  self (final (render_sidebar w (__init__ uuid4 store tr))) =
  self (__init__ uuid4 store tr).
Proof.
  unfold render_sidebar, bind, emit, modify, gets, ret. simpl.
  destruct (Py.truthy_str (text_input w)); simpl; destruct (button w); reflexivity.
Qed.

Lemma render_sidebar_outcome w s : outcome (render_sidebar w s) = Ok tt.
Proof. destruct (render_sidebar_returns w s) as [[] H]. exact H. Qed.

Lemma final_run C w s :
  final (run C w s) = final (main_ui C w (final (render_sidebar w s))).
Proof. unfold run. now rewrite final_bind, render_sidebar_outcome. Qed.

Lemma main_ui_clear_history C w :
  respects (same_count is_call_clear_history) (main_ui C w).
Proof.
  unfold main_ui, render_pdf_chat_interface, load_pdf_chatbot,
    load_audio_transcriber, load_image_description_generator.
  count_kept is_call_clear_history.
Qed.

Lemma main_clear_history C uuid4 w store tr :
  count is_call_clear_history (trace (final (main C uuid4 w store tr))) =
  count is_call_clear_history tr.
Proof.
  unfold main. rewrite final_run.
  rewrite (main_ui_clear_history C w).
  rewrite render_sidebar_of_new_assistant.
  unfold count. destruct (button w); reflexivity.
Qed.

(** X11: an execution of the script never calls [clear_history].  The
    sidebar is rendered before the main interface, on an assistant that
    [__init__] has just made, so [self.pdf_chatbot] is [None] when the
    button is looked at: over a whole session the chatbot's own memory is
    never cleared through the button, only the local transcript is. *)
Theorem clear_history_is_never_called C runs store tr :
  count is_call_clear_history (snd (executions C runs store tr)) =
  count is_call_clear_history tr.
Proof.
  revert store tr. induction runs as [|[uuid4 w] runs IH]; intros store tr.
  - reflexivity.
  - simpl executions. rewrite IH. apply main_clear_history.
Qed.

Lemma transcription_flow_constructs C file_path s :
  audio_transcriber (self s) = None ->
  count is_call_AudioTranscriber
    (trace (final
       ((load_audio_transcriber C ;;
         a <- gets (fun s => audio_transcriber (self s)) ;;
         match a with
         | Some h =>
             transcription <- transcribe_ C h file_path ;;
             emit (st_subheader "Transcription") ;;
             emit (st_write transcription)
         | None => ret tt
         end) s))) =
  S (count is_call_AudioTranscriber (trace s)).
Proof.
  intros Ha. unfold bind. rewrite (load_audio_transcriber_unset C s Ha). cbv zeta.
  destruct (new_AudioTranscriber C s) as [h|e|e];
    unfold bind, gets, transcribe_, emit, modify, final, count; simpl;
    rewrite ?Ha; reflexivity.
Qed.

Lemma description_flow_constructs C file_path s :
  image_description_generator (self s) = None ->
  count is_call_QwenVLDescriptionGenerator
    (trace (final
       ((load_image_description_generator C ;;
         g <- gets (fun s => image_description_generator (self s)) ;;
         match g with
         | Some h =>
             description <- generate_description_ C h file_path ;;
             emit (st_subheader "Image Description") ;;
             emit (st_write description)
         | None => ret tt
         end) s))) =
  S (count is_call_QwenVLDescriptionGenerator (trace s)).
Proof.
  intros Ha. unfold bind. rewrite (load_image_description_generator_unset C s Ha).
  cbv zeta.
  destruct (new_QwenVLDescriptionGenerator C s) as [h|e|e];
    unfold bind, gets, generate_description_, emit, modify, final, count; simpl;
    rewrite ?Ha; reflexivity.
Qed.

Lemma render_sidebar_new_assistant_count p uuid4 store tr w :
  p (st_success "Conversation history cleared!") = false ->
  p (st_sidebar_subheader "Google API Configuration") = false ->
  p (st_sidebar_title "Multimodal AI Assistant") = false ->
  count p (trace (final (render_sidebar w (__init__ uuid4 store tr)))) = count p tr.
Proof.
  intros H1 H2 H3. rewrite render_sidebar_of_new_assistant.
  unfold count. destruct (button w); simpl; now rewrite ?H1, ?H2, ?H3.
Qed.

(** X13: every execution that transcribes constructs the transcriber.
    Since [main] makes a new assistant, the loader finds its handle at
    [None] in each execution and calls the constructor, once: an execution
    whose upload is routed to the transcription flow adds exactly one call
    of [AudioTranscriber()] to the trace, whatever the executions before it
    have built, and one routed to the image-description flow adds exactly
    one call of [QwenVLDescriptionGenerator()]. *)
Theorem every_execution_constructs_its_handle C uuid4 w f store tr :
  file_uploader w = Some f ->
  let s' := final (main C uuid4 w store tr) in
  (routed (selectbox w) (file_extension_of (name f)) = Some Transcription ->
   count is_call_AudioTranscriber (trace s') = S (count is_call_AudioTranscriber tr))
  /\ (routed (selectbox w) (file_extension_of (name f)) = Some ImageDescription ->
      count is_call_QwenVLDescriptionGenerator (trace s') =
      S (count is_call_QwenVLDescriptionGenerator tr)).
Proof.
  intros Hf s'. subst s'. unfold main. rewrite final_run.
  rewrite (main_ui_routed C w f _ Hf). cbv zeta.
  split; intros Hr; rewrite Hr.
  - rewrite transcription_flow_constructs.
    + unfold uploaded_only, count at 1. simpl.
      fold (count is_call_AudioTranscriber
              (trace (final (render_sidebar w (__init__ uuid4 store tr))))).
      now rewrite render_sidebar_new_assistant_count.
    + unfold uploaded_only. simpl. now rewrite render_sidebar_self_unset.
  - rewrite description_flow_constructs.
    + unfold uploaded_only, count at 1. simpl.
      fold (count is_call_QwenVLDescriptionGenerator
              (trace (final (render_sidebar w (__init__ uuid4 store tr))))).
      now rewrite render_sidebar_new_assistant_count.
    + unfold uploaded_only. simpl. now rewrite render_sidebar_self_unset.
Qed.

Lemma every_execution_constructs_its_handle_witness :
  count is_call_AudioTranscriber
    (trace (final (main broken "session-2" (upload "talk.WAV" AutoDetect None)
                     (persisted chatting)
                     [call_AudioTranscriber (Ok (AudioTranscriber_at 0))]))) = 2
  /\ count is_call_QwenVLDescriptionGenerator
       (trace (final (main working "session-2" (upload "cat.jpeg" ImageDescription None)
                        empty_store []))) = 1.
Proof.
  split.
  - exact (proj1
      (every_execution_constructs_its_handle broken "session-2"
         (upload "talk.WAV" AutoDetect None) {| name := "talk.WAV"; getvalue := [] |}
         (persisted chatting) [call_AudioTranscriber (Ok (AudioTranscriber_at 0))]
         eq_refl) eq_refl).
  - exact (proj2
      (every_execution_constructs_its_handle working "session-2"
         (upload "cat.jpeg" ImageDescription None)
         {| name := "cat.jpeg"; getvalue := [] |} empty_store [] eq_refl) eq_refl).
Defined.

(** ** One upload, one collaborator *)

Lemma main_ui_flows C w f s :
  file_uploader w = Some f ->
  main_ui C w s =
  match routed (selectbox w) (file_extension_of (name f)) with
  | Some QuestionAnswering =>
      render_pdf_chat_interface C w (Py.path_join "temp" (name f)) (uploaded_only f s)
  | Some Transcription =>
      transcribing C (Py.path_join "temp" (name f)) (uploaded_only f s)
  | Some ImageDescription =>
      describing C (Py.path_join "temp" (name f)) (uploaded_only f s)
  | _ => (Ok tt, uploaded_only f s)
  end.
Proof. intros Hf. now rewrite (main_ui_routed C w f s Hf). Qed.

Ltac flow_count p :=
  unfold transcribing, describing, render_pdf_chat_interface, load_pdf_chatbot,
    load_audio_transcriber, load_image_description_generator;
  count_kept p.

Lemma transcribing_chatbot C p : respects (same_count is_chatbot_event) (transcribing C p).
Proof. flow_count is_chatbot_event. Qed.

Lemma transcribing_describer C p :
  respects (same_count is_describer_event) (transcribing C p).
Proof. flow_count is_describer_event. Qed.

Lemma describing_chatbot C p : respects (same_count is_chatbot_event) (describing C p).
Proof. flow_count is_chatbot_event. Qed.

Lemma describing_transcriber C p :
  respects (same_count is_transcriber_event) (describing C p).
Proof. flow_count is_transcriber_event. Qed.

Lemma render_pdf_chat_interface_transcriber C w p :
  respects (same_count is_transcriber_event) (render_pdf_chat_interface C w p).
Proof. flow_count is_transcriber_event. Qed.

Lemma render_pdf_chat_interface_describer C w p :
  respects (same_count is_describer_event) (render_pdf_chat_interface C w p).
Proof. flow_count is_describer_event. Qed.

Lemma uploaded_only_count p f s :
  p (st_title "Multimodal AI Assistant") = false ->
  p (os_makedirs "temp") = false ->
  p (file_write (Py.path_join "temp" (name f)) (getvalue f)) = false ->
  count p (trace (uploaded_only f s)) = count p (trace s).
Proof.
  intros H1 H2 H3. unfold uploaded_only, count. simpl. now rewrite H1, H2, H3.
Qed.

(** X7: one upload reaches one collaborator.  [main_ui] makes no call of
    any collaborator when there is no upload or when the upload is not
    routed; an upload routed to question answering makes no call of the
    transcriber nor of the image describer, constructor or method; one
    routed to transcription none of the chatbot nor of the image
    describer; one routed to image description none of the chatbot nor of
    the transcriber. *)
Theorem one_upload_one_collaborator C w s :
  let s' := final (main_ui C w s) in
  match file_uploader w with
  | None => count is_collaborator_call (trace s') = count is_collaborator_call (trace s)
  | Some f =>
      match routed (selectbox w) (file_extension_of (name f)) with
      | Some QuestionAnswering =>
          count is_transcriber_event (trace s') = count is_transcriber_event (trace s)
          /\ count is_describer_event (trace s') = count is_describer_event (trace s)
      | Some Transcription =>
          count is_chatbot_event (trace s') = count is_chatbot_event (trace s)
          /\ count is_describer_event (trace s') = count is_describer_event (trace s)
      | Some ImageDescription =>
          count is_chatbot_event (trace s') = count is_chatbot_event (trace s)
          /\ count is_transcriber_event (trace s') = count is_transcriber_event (trace s)
      | _ => count is_collaborator_call (trace s') = count is_collaborator_call (trace s)
      end
  end.
Proof.
  intros s'. subst s'. destruct (file_uploader w) as [f|] eqn:Hf.
  - rewrite (main_ui_flows C w f s Hf).
    destruct (routed (selectbox w) (file_extension_of (name f))) as [[| | |]|];
      try reflexivity.
    + split.
      * rewrite (render_pdf_chat_interface_transcriber C w _ (uploaded_only f s)).
        now apply uploaded_only_count.
      * rewrite (render_pdf_chat_interface_describer C w _ (uploaded_only f s)).
        now apply uploaded_only_count.
    + split.
      * rewrite (transcribing_chatbot C _ (uploaded_only f s)).
        now apply uploaded_only_count.
      * rewrite (transcribing_describer C _ (uploaded_only f s)).
        now apply uploaded_only_count.
    + split.
      * rewrite (describing_chatbot C _ (uploaded_only f s)).
        now apply uploaded_only_count.
      * rewrite (describing_transcriber C _ (uploaded_only f s)).
        now apply uploaded_only_count.
  - now rewrite (main_ui_no_upload C w s Hf).
Qed.

(** ** The chatbot: construction, replay and turns *)

Lemma on_pdf_change_trace' pdf_path s :
  trace (on_pdf_change pdf_path s) = trace s.
Proof. unfold on_pdf_change. now destruct (Py.differs _ _). Qed.

Lemma replayed_cons m r :
  replayed (m :: r) =
  (replayed r ++ [st_markdown (content m); st_chat_message (role m)])%list.
Proof. unfold replayed. simpl. now rewrite <- app_assoc. Qed.

Lemma replay_trace messages s :
  trace (final (for_each messages shown s)) = (replayed messages ++ trace s)%list.
Proof.
  revert s. induction messages as [|m r IH]; intros s; [reflexivity|].
  rewrite for_each_cons, shown_eq, IH, replayed_cons, <- app_assoc. reflexivity.
Qed.

Lemma asked_trace C h prompt s :
  exists answer,
    trace (asked C h prompt s) =
    st_markdown answer :: call_chat h prompt (session_id (st s)) answer
      :: st_spinner "Thinking..." :: st_chat_message assistant
      :: st_markdown prompt :: st_chat_message user :: trace s
    /\ pdf_chat_messages (st (asked C h prompt s)) =
       (pdf_chat_messages (st s)
        ++ [ {| role := user; content := prompt |};
             {| role := assistant; content := answer |} ])%list
    /\ current_pdf_path (st (asked C h prompt s)) = current_pdf_path (st s)
    /\ google_api_key (st (asked C h prompt s)) = google_api_key (st s).
Proof.
  unfold asked. cbv zeta. eexists. simpl. rewrite <- app_assoc. repeat split.
Qed.

(** [render_pdf_chat_interface] when the chatbot is built: the state after
    the loader, then the replay, then the turn if a question is put. *)
Lemma render_pdf_chat_interface_built C w pdf_path s h :
  Py.truthy (google_api_key (st s)) = true ->
  new_PDFChatbot C (on_pdf_change pdf_path s) pdf_path (google_api_key (st s)) = Ok h ->
  let s1 := on_pdf_change pdf_path s in
  let s2 := final (for_each (pdf_chat_messages (st s1)) shown
                     (set_pdf_chatbot (Some h)
                        (record (st_success "PDF Chatbot initialized successfully!")
                           (set_pdf_chatbot (Some h)
                              (record (call_PDFChatbot pdf_path (google_api_key (st s))
                                         (Ok h)) s1))))) in
  final (render_pdf_chat_interface C w pdf_path s) =
  match chat_input w with
  | Some prompt => if Py.truthy_str prompt then asked C h prompt s2 else s2
  | None => s2
  end
  /\ st s2 = st s1
  /\ trace s2 =
     (replayed (pdf_chat_messages (st s1))
      ++ st_success "PDF Chatbot initialized successfully!"
      :: call_PDFChatbot pdf_path (google_api_key (st s)) (Ok h) :: trace s)%list.
Proof.
  intros Hk Hnew s1 s2. split; [|split].
  - subst s2 s1.
    rewrite render_pdf_chat_interface_eq, (load_pdf_chatbot_key C pdf_path s Hk).
    cbv zeta. rewrite Hnew. unfold pdf_chatbot_built.
    rewrite on_pdf_change_google_api_key.
    destruct (chat_input w) as [prompt|]; [destruct (Py.truthy_str prompt)|];
      reflexivity.
  - subst s2.
    match goal with |- context [for_each ?l shown ?x] =>
      destruct (replay_session_state l x) as [H1 _] end.
    rewrite H1. reflexivity.
  - subst s2. rewrite replay_trace. simpl. subst s1.
    now rewrite on_pdf_change_trace'.
Qed.

Lemma render_pdf_chat_interface_after C w pdf_path :
  render_pdf_chat_interface C w pdf_path =
  (bot <- load_pdf_chatbot C pdf_path ;; render_pdf_chat_after C w bot).
Proof. reflexivity. Qed.

(** After the loader, [render_pdf_chat_interface] goes on from line 118, or
    ends where the loader has ended when that was with an exception. *)
Lemma final_render_pdf_chat_interface C w pdf_path s :
  (exists bot,
     final (render_pdf_chat_interface C w pdf_path s) =
     final (render_pdf_chat_after C w bot (final (load_pdf_chatbot C pdf_path s))))
  \/ final (render_pdf_chat_interface C w pdf_path s) =
     final (load_pdf_chatbot C pdf_path s).
Proof.
  rewrite render_pdf_chat_interface_after, final_bind.
  destruct (outcome (load_pdf_chatbot C pdf_path s)) as [bot|e|e]; auto.
  left. now exists bot.
Qed.

Lemma render_pdf_chat_after_constructs C w bot :
  respects (same_count is_call_PDFChatbot) (render_pdf_chat_after C w bot).
Proof. unfold render_pdf_chat_after. count_kept is_call_PDFChatbot. Qed.

Lemma render_pdf_chat_after_extends C w bot :
  respects extends (render_pdf_chat_after C w bot).
Proof. unfold render_pdf_chat_after. trace_extended. Qed.

Lemma load_pdf_chatbot_constructs C pdf_path s :
  Py.truthy (google_api_key (st s)) = true ->
  let r := new_PDFChatbot C (on_pdf_change pdf_path s) pdf_path (google_api_key (st s)) in
  let s' := final (load_pdf_chatbot C pdf_path s) in
  count is_call_PDFChatbot (trace s') = S (count is_call_PDFChatbot (trace s))
  /\ In (call_PDFChatbot pdf_path (google_api_key (st s)) r) (trace s')
  /\ forall h, r = Ok h ->
       pdf_chatbot (self s') = Some h
       /\ outcome (load_pdf_chatbot C pdf_path s) = Ok (Some h).
Proof.
  intros Hk r s'. subst s' r.
  rewrite (load_pdf_chatbot_key C pdf_path s Hk). cbv zeta.
  unfold pdf_chatbot_built. rewrite on_pdf_change_google_api_key.
  destruct (new_PDFChatbot C (on_pdf_change pdf_path s) pdf_path (google_api_key (st s)))
    as [h|e|e]; unfold final, outcome, count; simpl; rewrite on_pdf_change_trace'.
  - split; [reflexivity|]. split; [auto|]. intros h' [= <-]. now split.
  - split; [reflexivity|]. split; [auto|]. discriminate.
  - split; [reflexivity|]. split; [auto|]. discriminate.
Qed.

(** X5: the chatbot is constructed at every call.  With a credential set,
    [load_pdf_chatbot] calls [PDFChatbot(pdf_path, google_api_key)] once
    each time it is called, also for the document that is already the
    current one and when [self.pdf_chatbot] is set: it has no guard like the
    other two loaders.  The object it gets replaces the one that was
    there, and [render_pdf_chat_interface] makes this one call and no
    other. *)
Theorem chatbot_is_built_at_every_call C w pdf_path s :
  Py.truthy (google_api_key (st s)) = true ->
  let r := new_PDFChatbot C (on_pdf_change pdf_path s) pdf_path (google_api_key (st s)) in
  let s' := final (load_pdf_chatbot C pdf_path s) in
  count is_call_PDFChatbot (trace s') = S (count is_call_PDFChatbot (trace s))
  /\ In (call_PDFChatbot pdf_path (google_api_key (st s)) r) (trace s')
  /\ (forall h, r = Ok h ->
        pdf_chatbot (self s') = Some h
        /\ outcome (load_pdf_chatbot C pdf_path s) = Ok (Some h))
  /\ count is_call_PDFChatbot (trace (final (render_pdf_chat_interface C w pdf_path s)))
     = S (count is_call_PDFChatbot (trace s)).
Proof.
  intros Hk r s'.
  destruct (load_pdf_chatbot_constructs C pdf_path s Hk) as (H1 & H2 & H3).
  split; [exact H1|]. split; [exact H2|]. split; [exact H3|].
  destruct (final_render_pdf_chat_interface C w pdf_path s) as [[bot ->] | ->].
  - now rewrite (render_pdf_chat_after_constructs C w bot).
  - exact H1.
Qed.

Lemma chatbot_is_built_at_every_call_witness :
  count is_call_PDFChatbot
    (trace (final (load_pdf_chatbot working "temp/old.pdf"
                     (final (load_pdf_chatbot working "temp/old.pdf" chatting))))) = 2
  /\ pdf_chatbot
       (self (final (load_pdf_chatbot working "temp/old.pdf" chatting)))
     = Some (PDFChatbot_at 0).
Proof.
  split.
  - exact (proj1
      (chatbot_is_built_at_every_call working (upload "old.pdf" AutoDetect None)
         "temp/old.pdf" (final (load_pdf_chatbot working "temp/old.pdf" chatting))
         eq_refl)).
  - exact (proj1 (proj1 (proj2 (proj2
      (chatbot_is_built_at_every_call working (upload "old.pdf" AutoDetect None)
         "temp/old.pdf" chatting eq_refl))) (PDFChatbot_at 0) eq_refl)).
Defined.

(** X2: the transcript is replayed before the turn.  When the chatbot is
    built, [render_pdf_chat_interface] shows after the success message
    every entry of the transcript that the loader has left, the oldest
    first, each as its role and then its content; a question that is put
    is shown after them as the user's, and the last things of the trace
    are the call of [chat] with the question and the session identifier
    and the answer, shown as the assistant's. *)
Theorem transcript_is_replayed_before_the_turn C w pdf_path s h :
  Py.truthy (google_api_key (st s)) = true ->
  new_PDFChatbot C (on_pdf_change pdf_path s) pdf_path (google_api_key (st s)) = Ok h ->
  let s' := final (render_pdf_chat_interface C w pdf_path s) in
  let before :=
    (rev (flat_map (fun m => [st_chat_message (role m); st_markdown (content m)])
            (pdf_chat_messages (st (on_pdf_change pdf_path s))))
     ++ st_success "PDF Chatbot initialized successfully!"
     :: call_PDFChatbot pdf_path (google_api_key (st s)) (Ok h) :: trace s)%list in
  match chat_input w with
  | Some "" | None => trace s' = before
  | Some prompt =>
      exists answer,
        trace s' =
        st_markdown answer :: call_chat h prompt (session_id (st s)) answer
          :: st_spinner "Thinking..." :: st_chat_message assistant
          :: st_markdown prompt :: st_chat_message user :: before
  end.
Proof.
  intros Hk Hnew s' before.
  destruct (render_pdf_chat_interface_built C w pdf_path s h Hk Hnew)
    as (Hf & Hst & Htr).
  cbv zeta in Hf, Hst, Htr. subst s'. rewrite Hf.
  destruct (chat_input w) as [[|c prompt]|]; [exact Htr| |exact Htr].
  change (Py.truthy_str (String c prompt)) with true. cbv iota.
  match goal with |- context [asked C h ?q ?x] =>
    destruct (asked_trace C h q x) as (answer & Ha & _) end.
  exists answer. rewrite Ha, Htr, Hst, on_pdf_change_session_id. reflexivity.
Qed.

Lemma transcript_is_replayed_before_the_turn_witness :
  trace (final (render_pdf_chat_interface working (upload "old.pdf" AutoDetect None)
                  "temp/old.pdf" chatting)) =
  [ st_markdown "The board."; st_chat_message assistant;
    st_markdown "Who wrote it?"; st_chat_message user;
    st_success "PDF Chatbot initialized successfully!";
    call_PDFChatbot "temp/old.pdf" (Some "secret") (Ok (PDFChatbot_at 0)) ].
Proof.
  exact (transcript_is_replayed_before_the_turn working
           (upload "old.pdf" AutoDetect None) "temp/old.pdf" chatting (PDFChatbot_at 0)
           eq_refl eq_refl).
Defined.

Lemma render_sidebar_credential w s :
  Py.truthy_str (text_input w) = true ->
  google_api_key (st (final (render_sidebar w s))) = Some (text_input w)
  /\ count is_call_PDFChatbot (trace (final (render_sidebar w s)))
     = count is_call_PDFChatbot (trace s).
Proof.
  intros Ht. unfold render_sidebar, bind, emit, modify, gets, clear_history_, ret.
  simpl. rewrite Ht. simpl.
  destruct (button w); simpl; [destruct (pdf_chatbot (self s))|]; split; reflexivity.
Qed.

Lemma render_pdf_chat_after_google_api_key C w bot :
  respects same_google_api_key (render_pdf_chat_after C w bot).
Proof. unfold render_pdf_chat_after. google_api_key_kept. Qed.

(** X6: a credential that is entered is used at once.  [run] renders the
    sidebar before the main interface, so when a non-empty key is entered
    and a PDF is routed to question answering in the same execution, the
    key is stored and the chatbot is constructed in that execution, once,
    with the scratch path of the upload and with that very key, whatever
    key was stored before. *)
Theorem entered_credential_is_used_at_once C w f s :
  Py.truthy_str (text_input w) = true ->
  file_uploader w = Some f ->
  routed (selectbox w) (file_extension_of (name f)) = Some QuestionAnswering ->
  let s' := final (run C w s) in
  google_api_key (st s') = Some (text_input w)
  /\ count is_call_PDFChatbot (trace s') = S (count is_call_PDFChatbot (trace s))
  /\ exists r,
       In (call_PDFChatbot (Py.path_join "temp" (name f)) (Some (text_input w)) r)
          (trace s').
Proof.
  intros Ht Hf Hr s'. subst s'. rewrite final_run.
  destruct (render_sidebar_credential w s Ht) as [Hkey Hcount].
  set (s1 := final (render_sidebar w s)) in *.
  rewrite (main_ui_flows C w f s1 Hf), Hr.
  set (p := Py.path_join "temp" (name f)).
  assert (Hk : Py.truthy (google_api_key (st (uploaded_only f s1))) = true).
  { simpl. rewrite Hkey. exact Ht. }
  destruct (load_pdf_chatbot_constructs C p (uploaded_only f s1) Hk) as (H1 & H2 & _).
  assert (Hc0 : count is_call_PDFChatbot (trace (uploaded_only f s1))
                = count is_call_PDFChatbot (trace s))
    by (unfold uploaded_only, count; simpl; exact Hcount).
  simpl google_api_key in H2. rewrite Hkey in H2.
  destruct (final_render_pdf_chat_interface C w p (uploaded_only f s1))
    as [[bot ->] | ->].
  - split; [|split].
    + rewrite (render_pdf_chat_after_google_api_key C w bot).
      rewrite (load_pdf_chatbot_google_api_key C p (uploaded_only f s1)).
      exact Hkey.
    + now rewrite (render_pdf_chat_after_constructs C w bot), H1, Hc0.
    + eexists. refine (extends_In _ _ _ (render_pdf_chat_after_extends C w bot _) _).
      exact H2.
  - split; [|split].
    + rewrite (load_pdf_chatbot_google_api_key C p (uploaded_only f s1)).
      exact Hkey.
    + now rewrite H1, Hc0.
    + eexists. exact H2.
Qed.

Lemma entered_credential_is_used_at_once_witness :
  google_api_key
    (st (final (run working
                  {| text_input := "new key"; button := true;
                     file_uploader := Some {| name := "b.Pdf"; getvalue := [] |};
                     selectbox := QuestionAnswering; chat_input := None |} chatting)))
  = Some "new key".
Proof.
  exact (proj1
    (entered_credential_is_used_at_once working
       {| text_input := "new key"; button := true;
          file_uploader := Some {| name := "b.Pdf"; getvalue := [] |};
          selectbox := QuestionAnswering; chat_input := None |}
       {| name := "b.Pdf"; getvalue := [] |} chatting eq_refl eq_refl eq_refl)).
Defined.

(** ** The transcript is made of turns *)

Lemma list_pair_ind {A} (P : list A -> Prop) :
  P [] -> (forall x, P [x]) -> (forall x y l, P l -> P (x :: y :: l)) ->
  forall l, P l.
Proof.
  intros H0 H1 H2.
  assert (H : forall l, P l /\ forall x, P (x :: l)).
  { induction l as [|y l [IH1 IH2]]; split; auto. }
  intros l. apply H.
Qed.

Lemma turns_app l1 l2 :
  turns l1 = true -> turns l2 = true -> turns (l1 ++ l2) = true.
Proof.
  induction l1 as [|x|x y l IH] using list_pair_ind; simpl; intros H1 H2.
  - exact H2.
  - discriminate.
  - apply andb_true_iff in H1 as [H1 H3]. rewrite H1. simpl. now apply IH.
Qed.

Lemma turns_even l : turns l = true -> Nat.even (List.length l) = true.
Proof.
  induction l as [|x|x y l IH] using list_pair_ind; simpl; intros H.
  - reflexivity.
  - discriminate.
  - apply andb_true_iff in H as [_ H]. now apply IH.
Qed.

Lemma keeps_turns_refl s : keeps_turns s s.
Proof. intros H. exact H. Qed.

Lemma keeps_turns_trans s1 s2 s3 :
  keeps_turns s1 s2 -> keeps_turns s2 s3 -> keeps_turns s1 s3.
Proof. unfold keeps_turns. auto. Qed.

Ltac leaf_turns := unfold keeps_turns; simpl; auto.

Ltac turns_kept := prove_respects keeps_turns_refl keeps_turns_trans leaf_turns.

Lemma same_session_state_keeps_turns s s' : same_session_state s s' -> keeps_turns s s'.
Proof. unfold same_session_state, keeps_turns. now intros ->. Qed.

Lemma load_pdf_chatbot_turns C pdf_path : respects keeps_turns (load_pdf_chatbot C pdf_path).
Proof. unfold load_pdf_chatbot. turns_kept. Qed.

Lemma render_sidebar_turns w : respects keeps_turns (render_sidebar w).
Proof. unfold render_sidebar. turns_kept. Qed.

Lemma load_audio_transcriber_turns C : respects keeps_turns (load_audio_transcriber C).
Proof.
  eapply respects_weaken;
    [exact same_session_state_keeps_turns | apply load_audio_transcriber_session_state].
Qed.

Lemma load_image_description_generator_turns C :
  respects keeps_turns (load_image_description_generator C).
Proof.
  eapply respects_weaken;
    [exact same_session_state_keeps_turns
    | apply load_image_description_generator_session_state].
Qed.

Lemma render_pdf_chat_after_some C w h s :
  final (render_pdf_chat_after C w (Some h) s) =
  let s2 := final (for_each (pdf_chat_messages (st s)) shown
                     (set_pdf_chatbot (Some h) s)) in
  match chat_input w with
  | Some prompt => if Py.truthy_str prompt then asked C h prompt s2 else s2
  | None => s2
  end.
Proof.
  unfold render_pdf_chat_after. unfold bind at 1. unfold modify at 1.
  unfold bind at 1. unfold gets at 1. unfold bind at 1.
  change (fun message : Message =>
            emit (st_chat_message (role message)) ;;
            emit (st_markdown (content message))) with shown.
  pose proof (replay_returns (pdf_chat_messages (st (set_pdf_chatbot (Some h) s)))
                (set_pdf_chatbot (Some h) s)) as Hr.
  unfold outcome in Hr. unfold final at 2. simpl pdf_chat_messages in *.
  destruct (for_each (pdf_chat_messages (st s)) shown (set_pdf_chatbot (Some h) s))
    as [r s2]. simpl in Hr. subst r. cbv zeta. simpl snd.
  destruct (chat_input w) as [prompt|]; [|reflexivity].
  destruct (Py.truthy_str prompt); reflexivity.
Qed.

Lemma render_pdf_chat_after_turns C w bot :
  respects keeps_turns (render_pdf_chat_after C w bot).
Proof.
  intros s Ht. destruct bot as [h|]; [|exact Ht].
  rewrite render_pdf_chat_after_some. cbv zeta.
  match goal with |- context [for_each ?l shown ?x] =>
    destruct (replay_session_state l x) as [Hst _];
    set (s2 := final (for_each l shown x)) in *
  end.
  simpl in Hst.
  assert (H2 : turns (pdf_chat_messages (st s2)) = true) by now rewrite Hst.
  destruct (chat_input w) as [prompt|]; [destruct (Py.truthy_str prompt)|]; try exact H2.
  destruct (asked_trace C h prompt s2) as (answer & _ & Hm & _).
  rewrite Hm. now apply turns_app.
Qed.

Lemma render_pdf_chat_interface_turns C w pdf_path :
  respects keeps_turns (render_pdf_chat_interface C w pdf_path).
Proof.
  rewrite render_pdf_chat_interface_after. apply respects_bind.
  - exact keeps_turns_trans.
  - apply load_pdf_chatbot_turns.
  - intros bot. apply render_pdf_chat_after_turns.
Qed.

#[global] Hint Resolve load_audio_transcriber_turns load_image_description_generator_turns
  render_pdf_chat_interface_turns render_sidebar_turns : methods.

Lemma main_ui_turns C w : respects keeps_turns (main_ui C w).
Proof. unfold main_ui. turns_kept. Qed.

#[global] Hint Resolve main_ui_turns : methods.

Lemma run_turns C w : respects keeps_turns (run C w).
Proof. unfold run. turns_kept. Qed.

Lemma perform_turns C c s : keeps_turns s (perform C c s).
Proof.
  destruct c; simpl.
  - apply load_audio_transcriber_turns.
  - apply load_pdf_chatbot_turns.
  - apply load_image_description_generator_turns.
  - apply render_sidebar_turns.
  - apply render_pdf_chat_interface_turns.
  - apply main_ui_turns.
  - apply run_turns.
Qed.

Lemma main_turns C uuid4 w store tr :
  stored_turns store = true ->
  stored_turns (persisted (final (main C uuid4 w store tr))) = true.
Proof.
  unfold stored_turns, main. intros Hs. simpl stored_pdf_chat_messages.
  apply run_turns. simpl.
  destruct (stored_pdf_chat_messages store); [exact Hs | reflexivity].
Qed.

Lemma executions_turns C runs store tr :
  stored_turns store = true ->
  stored_turns (fst (executions C runs store tr)) = true.
Proof.
  revert store tr. induction runs as [|[uuid4 w] runs IH]; intros store tr Hs; simpl.
  - exact Hs.
  - apply IH. now apply main_turns.
Qed.

(** X3: the transcript is made of turns.  Every method keeps a transcript
    that consists of turns, a user entry followed by an assistant entry,
    in that form: it is left as it is, emptied, or extended by one whole
    turn.  So over a session that starts without a transcript the stored
    transcript consists of turns after every execution, and its length is
    even (the call of [chat] being taken to return). *)
Theorem transcript_is_made_of_turns C c s runs tr :
  (turns (pdf_chat_messages (st s)) = true ->
   turns (pdf_chat_messages (st (perform C c s))) = true)
  /\ (forall store,
        stored_turns store = true ->
        stored_turns (fst (executions C runs store tr)) = true)
  /\ (forall messages,
        stored_pdf_chat_messages (fst (executions C runs empty_store tr))
        = Some messages ->
        turns messages = true /\ Nat.even (List.length messages) = true).
Proof.
  split; [apply perform_turns|].
  split; [intros store; apply executions_turns|].
  intros messages Hm.
  pose proof (executions_turns C runs empty_store tr eq_refl) as H.
  unfold stored_turns in H. rewrite Hm in H. split; [exact H | now apply turns_even].
Qed.

Lemma transcript_is_made_of_turns_witness :
  turns
    (pdf_chat_messages
       (st (perform working
              (do_run (upload "old.pdf" AutoDetect (Some "And when?"))) chatting)))
  = true.
Proof.
  exact (proj1
    (transcript_is_made_of_turns working
       (do_run (upload "old.pdf" AutoDetect (Some "And when?"))) chatting [] [])
    eq_refl).
Defined.

(** ** The transcript over the executions of a session *)

Lemma render_sidebar_no_button w s :
  button w = false ->
  pdf_chat_messages (st (final (render_sidebar w s))) = pdf_chat_messages (st s)
  /\ current_pdf_path (st (final (render_sidebar w s))) = current_pdf_path (st s).
Proof.
  intros Hb. unfold render_sidebar, bind, emit, modify, gets, ret. simpl.
  rewrite Hb. destruct (Py.truthy_str (text_input w)); split; reflexivity.
Qed.

Lemma differs_same pdf_path : Py.differs (Some pdf_path) pdf_path = false.
Proof. unfold Py.differs. now rewrite String.eqb_refl. Qed.

Lemma persisted_current_pdf_path s :
  stored_current_pdf_path (persisted s) = Some (current_pdf_path (st s)).
Proof. reflexivity. Qed.

Lemma persisted_pdf_chat_messages s :
  stored_pdf_chat_messages (persisted s) = Some (pdf_chat_messages (st s)).
Proof. reflexivity. Qed.

(** One execution that puts a question on the current document. *)
Lemma main_asks C uuid4 w store tr pdf_path messages :
  chatbot_constructible C ->
  credential_stored store = true ->
  stored_current_pdf_path store = Some (Some pdf_path) ->
  stored_pdf_chat_messages store = Some messages ->
  asks pdf_path w ->
  let store' := persisted (final (main C uuid4 w store tr)) in
  credential_stored store' = true
  /\ stored_current_pdf_path store' = Some (Some pdf_path)
  /\ exists prompt answer,
       chat_input w = Some prompt
       /\ stored_pdf_chat_messages store' =
          Some (messages
                ++ [ {| role := user; content := prompt |};
                     {| role := assistant; content := answer |} ])%list.
Proof.
  intros HC Hcred Hpath Hmsgs (Hb & f & prompt & Hf & Hp & Hr & Hin & Ht) store'.
  subst store'. split; [now apply main_keeps_credential|].
  unfold main. rewrite final_run.
  set (s0 := __init__ uuid4 store tr).
  assert (Hk0 : Py.truthy (google_api_key (st s0)) = true).
  { unfold credential_stored in Hcred. subst s0. simpl.
    destruct (stored_google_api_key store); [exact Hcred | discriminate]. }
  assert (Hm0 : pdf_chat_messages (st s0) = messages)
    by (subst s0; simpl; now rewrite Hmsgs).
  assert (Hp0 : current_pdf_path (st s0) = Some pdf_path)
    by (subst s0; simpl; now rewrite Hpath).
  destruct (render_sidebar_no_button w s0 Hb) as [Hm1 Hp1].
  pose proof (render_sidebar_keeps_credential w s0 Hk0) as Hk1.
  set (s1 := final (render_sidebar w s0)) in *.
  rewrite (main_ui_flows C w f s1 Hf), Hr, Hp.
  set (s2 := uploaded_only f s1).
  assert (Hk2 : Py.truthy (google_api_key (st s2)) = true) by exact Hk1.
  destruct (HC (on_pdf_change pdf_path s2) pdf_path (google_api_key (st s2)))
    as [h Hnew].
  destruct (render_pdf_chat_interface_built C w pdf_path s2 h Hk2 Hnew)
    as (Hfin & Hst & _).
  cbv zeta in Hfin, Hst. rewrite Hfin, Hin, Ht.
  match goal with |- context [asked C h prompt ?x] =>
    destruct (asked_trace C h prompt x) as (answer & _ & Ham & Hap & _);
    set (s3 := x) in *
  end.
  assert (Hsame : st (on_pdf_change pdf_path s2) = st s1).
  { unfold on_pdf_change.
    assert (Hd : Py.differs (current_pdf_path (st s2)) pdf_path = false).
    { change (current_pdf_path (st s2)) with (current_pdf_path (st s1)).
      rewrite Hp1, Hp0. apply differs_same. }
    now rewrite Hd. }
  split.
  - rewrite persisted_current_pdf_path, Hap, Hst, Hsame, Hp1, Hp0. reflexivity.
  - exists prompt, answer. split; [reflexivity|].
    rewrite persisted_pdf_chat_messages, Ham, Hst, Hsame, Hm1, Hm0. reflexivity.
Qed.

(** X9: the transcript carries over from one execution to the next.  In a
    session whose store has a credential and a current document, executions
    that each put a question on that document, without the clear-history
    button, keep what the transcript had and add their turn to it: after
    [n] of them the stored transcript is the old one followed by [2 n]
    entries, which are [n] turns; the document path and the credential stay
    (the chatbot being one that can be constructed, and is, anew, in each
    execution). *)
Theorem transcript_carries_over C runs store tr pdf_path messages :
  chatbot_constructible C ->
  credential_stored store = true ->
  stored_current_pdf_path store = Some (Some pdf_path) ->
  stored_pdf_chat_messages store = Some messages ->
  Forall (fun r => asks pdf_path (snd r)) runs ->
  let store' := fst (executions C runs store tr) in
  stored_current_pdf_path store' = Some (Some pdf_path)
  /\ exists added,
       stored_pdf_chat_messages store' = Some (messages ++ added)%list
       /\ List.length added = 2 * List.length runs
       /\ turns added = true.
Proof.
  intros HC. revert store tr messages.
  induction runs as [|[uuid4 w] runs IH]; intros store tr messages Hc Hp Hm Hall.
  - simpl. split; [exact Hp|]. exists []. rewrite app_nil_r. now repeat split.
  - inversion Hall as [|? ? Hw Hrest]; subst. simpl in Hw.
    destruct (main_asks C uuid4 w store tr pdf_path messages HC Hc Hp Hm Hw)
      as (Hc' & Hp' & prompt & answer & _ & Hm').
    cbv zeta in Hc', Hp', Hm'.
    destruct (IH _ (trace (final (main C uuid4 w store tr))) _ Hc' Hp' Hm' Hrest)
      as (Hp'' & added & Hm'' & Hlen & Ht).
    simpl executions. split; [exact Hp''|].
    exists ({| role := user; content := prompt |}
            :: {| role := assistant; content := answer |} :: added).
    split; [|split].
    + cbv zeta in Hm''. rewrite Hm'', <- app_assoc. reflexivity.
    + simpl. rewrite Hlen. simpl. lia.
    + simpl. exact Ht.
Qed.

Lemma working_chatbot_constructible : chatbot_constructible working.
Proof. intros s pdf_path key. eexists. reflexivity. Defined.

Lemma upload_asks file_name prompt :
  routed AutoDetect (file_extension_of file_name) = Some QuestionAnswering ->
  Py.truthy_str prompt = true ->
  asks (Py.path_join "temp" file_name) (upload file_name AutoDetect (Some prompt)).
Proof.
  intros Hr Hp. split; [reflexivity|].
  exists {| name := file_name; getvalue := [] |}, prompt. repeat split; assumption.
Defined.

Lemma transcript_carries_over_witness :
  exists added,
    stored_pdf_chat_messages
      (fst (executions working
              [ ("id-2", upload "old.pdf" AutoDetect (Some "And when?"));
                ("id-3", upload "old.pdf" AutoDetect (Some "And why?")) ]
              (persisted chatting) []))
    = Some ([ {| role := user; content := "Who wrote it?" |};
              {| role := assistant; content := "The board." |} ] ++ added)%list
    /\ List.length added = 4
    /\ turns added = true.
Proof.
  exact (proj2
    (transcript_carries_over working
       [ ("id-2", upload "old.pdf" AutoDetect (Some "And when?"));
         ("id-3", upload "old.pdf" AutoDetect (Some "And why?")) ]
       (persisted chatting) [] "temp/old.pdf"
       [ {| role := user; content := "Who wrote it?" |};
         {| role := assistant; content := "The board." |} ]
       working_chatbot_constructible eq_refl eq_refl eq_refl
       (Forall_cons (P := fun r => asks "temp/old.pdf" (snd r))
          ("id-2", upload "old.pdf" AutoDetect (Some "And when?"))
          (upload_asks "old.pdf" "And when?" eq_refl eq_refl)
          (Forall_cons (P := fun r => asks "temp/old.pdf" (snd r))
             ("id-3", upload "old.pdf" AutoDetect (Some "And why?"))
             (upload_asks "old.pdf" "And why?" eq_refl eq_refl)
             (Forall_nil _))))).
Defined.

(** ** The extension of a file name *)

Lemma lower_char_dot c : Ascii.eqb (Py.lower_char c) "." = Ascii.eqb c ".".
Proof. destruct c as [[] [] [] [] [] [] [] []]; reflexivity. Qed.

Lemma lower_char_sep c : Ascii.eqb (Py.lower_char c) "/" = Ascii.eqb c "/".
Proof. destruct c as [[] [] [] [] [] [] [] []]; reflexivity. Qed.

Lemma lower_char_idempotent c : Py.lower_char (Py.lower_char c) = Py.lower_char c.
Proof. destruct c as [[] [] [] [] [] [] [] []]; reflexivity. Qed.

Lemma lower_idempotent s : Py.lower (Py.lower s) = Py.lower s.
Proof.
  induction s as [|c r IH]; simpl; [reflexivity|].
  now rewrite lower_char_idempotent, IH.
Qed.

Lemma lower_length s : String.length (Py.lower s) = String.length s.
Proof. induction s as [|c r IH]; simpl; congruence. Qed.

Lemma rfind_from_lower c p i found :
  (forall x, Ascii.eqb (Py.lower_char x) c = Ascii.eqb x c) ->
  Py.rfind_from c (Py.lower p) i found = Py.rfind_from c p i found.
Proof.
  intros Hc. revert i found. induction p as [|x r IH]; intros i found; simpl.
  - reflexivity.
  - now rewrite Hc, IH.
Qed.

Lemma get_lower n p :
  String.get n (Py.lower p) = option_map Py.lower_char (String.get n p).
Proof.
  revert n. induction p as [|x r IH]; intros n; simpl; [reflexivity|].
  destruct n; [reflexivity | apply IH].
Qed.

Lemma splitext_loop_lower p i n :
  Py.splitext_loop (Py.lower p) i n = Py.splitext_loop p i n.
Proof.
  revert i. induction n as [|n IH]; intros i; simpl; [reflexivity|].
  unfold Py.char_at. destruct (i <? 0)%Z; [reflexivity|].
  rewrite get_lower. destruct (String.get (Z.to_nat i) p) as [c|]; simpl.
  - rewrite lower_char_dot, IH. reflexivity.
  - reflexivity.
Qed.

Lemma substring_lower n m p :
  substring n m (Py.lower p) = Py.lower (substring n m p).
Proof.
  revert n m. induction p as [|x r IH]; intros n m.
  - destruct n, m; reflexivity.
  - destruct n as [|n]; simpl.
    + destruct m as [|m]; simpl; [reflexivity | now rewrite IH].
    + apply IH.
Qed.

Lemma splitext_lower p :
  Py.splitext (Py.lower p) =
  (Py.lower (fst (Py.splitext p)), Py.lower (snd (Py.splitext p))).
Proof.
  unfold Py.splitext, Py.rfind.
  rewrite !rfind_from_lower by (first [exact lower_char_dot | exact lower_char_sep]).
  rewrite splitext_loop_lower.
  destruct ((Py.rfind_from "/" p 0 (-1) <? Py.rfind_from "." p 0 (-1))%Z
            && Py.splitext_loop p (Py.rfind_from "/" p 0 (-1) + 1)
                 (Z.to_nat (Py.rfind_from "." p 0 (-1) - (Py.rfind_from "/" p 0 (-1) + 1))));
    simpl; [|reflexivity].
  unfold Py.slice_to, Py.slice_from.
  now rewrite lower_length, !substring_lower.
Qed.

Lemma file_extension_of_lower file_name :
  file_extension_of (Py.lower file_name) = file_extension_of file_name.
Proof.
  unfold file_extension_of. rewrite splitext_lower. simpl.
  apply lower_idempotent.
Qed.

(** X4: routing does not look at the case of the file name.  Two names
    that differ in the case of their ASCII letters only have the same
    extension for line 184, hence are routed alike in every mode; and the
    extension that is compared has no capital letter. *)
Theorem routing_ignores_case name1 name2 m :
  Py.lower name1 = Py.lower name2 ->
  file_extension_of name1 = file_extension_of name2
  /\ routed m (file_extension_of name1) = routed m (file_extension_of name2)
  /\ Py.lower (file_extension_of name1) = file_extension_of name1.
Proof.
  intros H.
  assert (He : file_extension_of name1 = file_extension_of name2).
  { rewrite <- (file_extension_of_lower name1), <- (file_extension_of_lower name2).
    now rewrite H. }
  split; [exact He|]. split; [now rewrite He|].
  unfold file_extension_of. apply lower_idempotent.
Qed.

Lemma routing_ignores_case_witness :
  routed AutoDetect (file_extension_of "Holiday.JPeG")
  = routed AutoDetect (file_extension_of "holiday.jpeg").
Proof.
  exact (proj1 (proj2
    (routing_ignores_case "Holiday.JPeG" "holiday.jpeg" AutoDetect eq_refl))).
Defined.

Lemma rfind_from_absent c p i found :
  occurs c p = false -> Py.rfind_from c p i found = found.
Proof.
  revert i found. induction p as [|x r IH]; intros i found; simpl; [reflexivity|].
  intros H. apply orb_false_iff in H as [Hx Hr]. rewrite Hx. now apply IH.
Qed.

Lemma rfind_from_bound c p i found :
  (-1 <= found)%Z -> (0 <= i)%Z -> (-1 <= Py.rfind_from c p i found)%Z.
Proof.
  revert i found. induction p as [|x r IH]; intros i found Hf Hi; simpl.
  - exact Hf.
  - apply IH; [destruct (Ascii.eqb x c)|]; lia.
Qed.

Lemma splitext_no_dot p : occurs "." p = false -> Py.splitext p = (p, "").
Proof.
  intros H. unfold Py.splitext, Py.rfind. rewrite (rfind_from_absent "." p 0 (-1) H).
  destruct (Py.rfind_from "/" p 0 (-1) <? -1)%Z eqn:E; [|reflexivity].
  apply Z.ltb_lt in E.
  pose proof (rfind_from_bound "/" p 0 (-1)). lia.
Qed.

Lemma splitext_dotfile r :
  occurs "." r = false -> occurs "/" r = false ->
  Py.splitext (String "." r) = (String "." r, "").
Proof.
  intros Hd Hs. unfold Py.splitext, Py.rfind. simpl Py.rfind_from.
  rewrite (rfind_from_absent "/" r _ _ Hs), (rfind_from_absent "." r _ _ Hd).
  reflexivity.
Qed.

Lemma routed_no_extension m : routed m "" = None.
Proof. destruct m; reflexivity. Qed.

(** X12: a file name without an extension is not routed.  A name with no
    dot at all, and a name that is one leading dot followed by neither dot
    nor slash (so [.pdf] itself), have the empty extension for
    [os.path.splitext]: in every mode, Question Answering selected by hand
    included, [main_ui] writes the upload to the scratch directory and
    enters no flow. *)
Theorem name_without_extension_is_not_routed C w f s :
  file_uploader w = Some f ->
  occurs "." (name f) = false
  \/ (exists r, name f = String "." r /\ occurs "." r = false /\ occurs "/" r = false) ->
  file_extension_of (name f) = ""
  /\ main_ui C w s = (Ok tt, uploaded_only f s).
Proof.
  intros Hf Hn.
  assert (He : file_extension_of (name f) = "").
  { unfold file_extension_of. destruct Hn as [Hn | (r & Hr & Hd & Hs)].
    - now rewrite (splitext_no_dot _ Hn).
    - now rewrite Hr, (splitext_dotfile r Hd Hs). }
  split; [exact He|].
  now rewrite (main_ui_flows C w f s Hf), He, routed_no_extension.
Qed.

Lemma name_without_extension_is_not_routed_witness :
  main_ui working (upload ".pdf" QuestionAnswering (Some "Why?")) keyed =
  (Ok tt, uploaded_only {| name := ".pdf"; getvalue := [] |} keyed)
  /\ main_ui working (upload "README" AutoDetect None) keyed =
     (Ok tt, uploaded_only {| name := "README"; getvalue := [] |} keyed).
Proof.
  split.
  - exact (proj2
      (name_without_extension_is_not_routed working
         (upload ".pdf" QuestionAnswering (Some "Why?"))
         {| name := ".pdf"; getvalue := [] |} keyed eq_refl
         (or_intror (ex_intro _ "pdf" (conj eq_refl (conj eq_refl eq_refl)))))).
  - exact (proj2
      (name_without_extension_is_not_routed working (upload "README" AutoDetect None)
         {| name := "README"; getvalue := [] |} keyed eq_refl (or_introl eq_refl))).
Defined.

(** ** What a failure and an idle execution leave *)

Lemma on_pdf_change_current pdf_path s :
  current_pdf_path (st s) = Some pdf_path -> on_pdf_change pdf_path s = s.
Proof.
  intros H. unfold on_pdf_change. now rewrite H, differs_same.
Qed.

(** X14: a failure on the current document loses nothing.  When the
    constructor of the chatbot raises for the document that is already the
    current one, the loader shows the error and the session state is what
    it was: the transcript, the path and the credential stay, and only
    [self.pdf_chatbot] is [None] after [render_pdf_chat_interface]. *)
Theorem failure_on_current_document_keeps_session C w pdf_path s e :
  Py.truthy (google_api_key (st s)) = true ->
  current_pdf_path (st s) = Some pdf_path ->
  new_PDFChatbot C s pdf_path (google_api_key (st s)) = Raise e ->
  st (final (load_pdf_chatbot C pdf_path s)) = st s
  /\ st (final (render_pdf_chat_interface C w pdf_path s)) = st s
  /\ pdf_chatbot (self (final (render_pdf_chat_interface C w pdf_path s))) = None
  /\ trace (final (render_pdf_chat_interface C w pdf_path s)) =
     st_error ("Failed to load PDF Chatbot: " ++ e)
       :: call_PDFChatbot pdf_path (google_api_key (st s)) (Raise e) :: trace s.
Proof.
  intros Hk Hp Hnew.
  assert (Hl : load_pdf_chatbot C pdf_path s =
               (Ok None,
                record (st_error ("Failed to load PDF Chatbot: " ++ e))
                  (record (call_PDFChatbot pdf_path (google_api_key (st s)) (Raise e))
                     s))).
  { rewrite (load_pdf_chatbot_key C pdf_path s Hk). cbv zeta.
    rewrite (on_pdf_change_current pdf_path s Hp), Hnew. reflexivity. }
  rewrite render_pdf_chat_interface_eq, Hl. repeat split.
Qed.

Lemma failure_on_current_document_keeps_session_witness :
  st (final (render_pdf_chat_interface broken (upload "old.pdf" AutoDetect (Some "Why?"))
               "temp/old.pdf" chatting)) = st chatting.
Proof.
  exact (proj1 (proj2
    (failure_on_current_document_keeps_session broken
       (upload "old.pdf" AutoDetect (Some "Why?")) "temp/old.pdf" chatting "bad key"
       eq_refl eq_refl eq_refl))).
Defined.

Lemma init_persisted uuid4 s tr :
  st (__init__ uuid4 (persisted s) tr) = st s.
Proof. destruct s as [[sid msgs path key] a t]. reflexivity. Qed.

Lemma main_idle C uuid4 w s tr :
  idle w ->
  st (final (main C uuid4 w (persisted s) tr)) = st s
  /\ trace (final (main C uuid4 w (persisted s) tr)) =
     st_title "Multimodal AI Assistant"
       :: st_sidebar_subheader "Google API Configuration"
       :: st_sidebar_title "Multimodal AI Assistant" :: tr.
Proof.
  intros (Ht & Hb & Hf). unfold main. rewrite final_run.
  rewrite (main_ui_no_upload C w _ Hf).
  unfold render_sidebar, bind, emit, modify, gets, ret. rewrite Ht, Hb. simpl.
  split; [|reflexivity].
  destruct s as [[sid msgs path key] a t]. reflexivity.
Qed.

Lemma persisted_st s s' : st s' = st s -> persisted s' = persisted s.
Proof. unfold persisted. now intros ->. Qed.

(** X15: an idle execution changes nothing.  [__init__] finds in the store
    what the execution before has left there, and an execution in which no
    key is entered, the button is not pressed and nothing is uploaded
    shows the two titles and the subheader and leaves the session state as
    it was; so after any number of such executions the store is the same
    and no collaborator has been called. *)
Theorem idle_executions_change_nothing C runs s tr :
  Forall (fun r => idle (snd r)) runs ->
  fst (executions C runs (persisted s) tr) = persisted s
  /\ count is_collaborator_call (snd (executions C runs (persisted s) tr))
     = count is_collaborator_call tr
  /\ forall uuid4, st (__init__ uuid4 (persisted s) tr) = st s.
Proof.
  intros Hall. split; [|split; [|intros uuid4; apply init_persisted]].
  - revert tr. induction Hall as [|[uuid4 w] runs Hw _ IH]; intros tr; [reflexivity|].
    simpl executions. destruct (main_idle C uuid4 w s tr Hw) as [Hst _].
    rewrite (persisted_st _ _ Hst). apply IH.
  - revert tr. induction Hall as [|[uuid4 w] runs Hw _ IH]; intros tr; [reflexivity|].
    simpl executions. destruct (main_idle C uuid4 w s tr Hw) as [Hst Htr].
    rewrite (persisted_st _ _ Hst), IH, Htr. reflexivity.
Qed.

Lemma idle_executions_change_nothing_witness :
  fst (executions broken
         [("id-2", sidebar_only "" false); ("id-3", sidebar_only "" false)]
         (persisted chatting) [])
  = persisted chatting.
Proof.
  exact (proj1
    (idle_executions_change_nothing broken
       [("id-2", sidebar_only "" false); ("id-3", sidebar_only "" false)] chatting []
       (Forall_cons (P := fun r => idle (snd r)) ("id-2", sidebar_only "" false)
          (conj eq_refl (conj eq_refl eq_refl))
          (Forall_cons (P := fun r => idle (snd r)) ("id-3", sidebar_only "" false)
             (conj eq_refl (conj eq_refl eq_refl)) (Forall_nil _))))).
Defined.
